(** * Two-seed movie recommender: vector index and hybrid ranking

    Shallow embedding of [utils/embeddings.py] (EmbeddingManager),
    [utils/recommender.py] (MovieRecommender) and of the stand-alone
    script [app.py] (recommend_movies), together with the parts of the
    Python runtime, of pandas and of FAISS that these functions call.

    Conventions.
    - Similarity scores and genre scores are floats in the program; they
      are idealised here as rationals ([Q]).  The program only compares
      and selects scores (comparisons are exact on floats), except for the
      inner product inside FAISS and the one division of the genre score,
      which are taken without rounding.
    - Row indices are [Z]: FAISS uses the label [-1] for "no result".
    - A pandas frame with a RangeIndex is a list of rows; the label of a
      row is its position. *)

From Stdlib Require Import String Ascii ZArith QArith Qminmax List Bool Lia.
From Stdlib Require Import Permutation Sorting.Sorted.
From Stdlib Require Import DecimalString Lqa.
Import ListNotations.

Local Open Scope Z_scope.

(* ================================================================== *)
(** * Python runtime                                                   *)
(* ================================================================== *)

Module Py.

(** Exceptions the modelled code can raise. *)
Inductive exn : Type :=
| ValueError (msg : string)
| IndexError (msg : string)
| KeyError (label : Z).

(** [min(a, b)] on two numbers: the second argument is returned only when
    it is strictly smaller than the first. *)
Definition min (a b : Q) : Q :=
  match Qcompare b a with
  | Lt => b
  | _ => a
  end.

(** [i in xs] for a sequence (or set) of integers. *)
Definition contains (i : Z) (xs : list Z) : bool :=
  existsb (Z.eqb i) xs.

(** [xs.index(i)]: position of the first occurrence; [None] stands for the
    ValueError of an absent element. *)
Fixpoint index (i : Z) (xs : list Z) : option nat :=
  match xs with
  | [] => None
  | x :: xs' =>
      if Z.eqb x i then Some O
      else match index i xs' with
           | Some n => Some (S n)
           | None => None
           end
  end.

(** [xs[:n]] for a Python integer [n]: a negative bound counts from the
    end, and every bound is clamped to the list. *)
Definition slice_to {A : Type} (xs : list A) (n : Z) : list A :=
  if 0 <=? n then firstn (Z.to_nat n) xs
  else firstn (Z.to_nat (Z.of_nat (length xs) + n)) xs.

(** [sorted(xs, key=key, reverse=True)].  Python's sort is stable also
    under [reverse=True]: elements with equal keys keep their input order.
    A stable sort has exactly one possible output, so the insertion sort
    below returns the same list as the interpreter's merge sort. *)
Section Sorted.
Context {A : Type} (key : A -> Q).

Fixpoint insert_desc (x : A) (l : list A) : list A :=
  match l with
  | [] => [x]
  | y :: l' =>
      match Qcompare (key x) (key y) with
      | Lt => y :: insert_desc x l'
      | _ => x :: l
      end
  end.

Definition sorted_reverse (l : list A) : list A :=
  fold_right insert_desc [] l.
End Sorted.

(** [s.split()]: maximal runs of non-whitespace characters. *)
Definition is_space (c : ascii) : bool :=
  let n := nat_of_ascii c in
  ((9 <=? n) && (n <=? 13) || (n =? 32) || ((28 <=? n) && (n <=? 31)))%nat.

Fixpoint split_aux (s : string) (cur : string) : list string :=
  match s with
  | EmptyString =>
      match cur with
      | EmptyString => []
      | _ => [cur]
      end
  | String c s' =>
      if is_space c then
        match cur with
        | EmptyString => split_aux s' EmptyString
        | _ => cur :: split_aux s' EmptyString
        end
      else split_aux s' (cur ++ String c EmptyString)%string
  end.

Definition split (s : string) : list string := split_aux s EmptyString.

(** [set(tokens)] for strings, as far as the program observes it: only
    [len] and membership are used, never the iteration order. *)
Definition str_set (l : list string) : list string := nodup string_dec l.

Definition str_mem (s : string) (l : list string) : bool :=
  existsb (String.eqb s) l.

(** [len(a & b)] *)
Definition inter_len (a b : list string) : nat :=
  length (filter (fun s => str_mem s b) a).

End Py.

(* ================================================================== *)
(** * Sets of integers                                                 *)
(* ================================================================== *)

(** The program builds [combined = list(set(idxs1) | set(idxs2))].  The
    language only promises that the list enumerates the union without
    repetition; the order is the interpreter's.  [set_order] is that
    contract, and the functions of the program take an instance of it. *)
Record set_order : Type := {
  union_list : list Z -> list Z -> list Z;
  union_list_NoDup : forall xs ys, NoDup (union_list xs ys);
  union_list_In : forall xs ys i, In i (union_list xs ys) <-> In i xs \/ In i ys
}.

(** The hash table of CPython's [setobject.c] (3.7 to 3.12), restricted to
    integer keys and to the operations the program performs: construction
    from an iterable, union, iteration.  Nothing is ever deleted, so there
    are no dummy entries and [fill = used]. *)
Module CPython.

Definition PySet_MINSIZE : Z := 8.
Definition LINEAR_PROBES : nat := 9.
Definition PERTURB_SHIFT : Z := 5.

(** [hash(k)] of an [int] or [numpy.int64]: reduction modulo the Mersenne
    prime [2^61 - 1] keeping the sign, with [-1] reserved. *)
Definition hash (k : Z) : Z :=
  let h := Z.sgn k * (Z.abs k mod (2 ^ 61 - 1)) in
  if h =? -1 then -2 else h.

(** The cast [(size_t)hash]. *)
Definition size_t (h : Z) : Z := h mod 2 ^ 64.

Record setobject : Type := {
  table : list (option Z);
  mask : Z;
  fill : Z
}.

Definition empty_table (size : Z) : list (option Z) :=
  repeat None (Z.to_nat size).

Definition set_empty : setobject :=
  {| table := empty_table PySet_MINSIZE; mask := PySet_MINSIZE - 1; fill := 0 |}.

Fixpoint store (j : nat) (key : Z) (t : list (option Z)) : list (option Z) :=
  match t, j with
  | [], _ => []
  | _ :: t', O => Some key :: t'
  | e :: t', S j' => e :: store j' key t'
  end.

Inductive probe : Type :=
| Unused (j : nat)
| Active.

(** The inner loop: slot [i] and the next [probes] slots.  With [cmp] the
    keys are compared (set_add_entry), without they are not
    (set_insert_clean). *)
Fixpoint scan (cmp : bool) (t : list (option Z)) (key : Z) (i probes : nat)
  : option probe :=
  match nth i t None with
  | None => Some (Unused i)
  | Some k =>
      if cmp && (k =? key) then Some Active
      else match probes with
           | O => None
           | S p => scan cmp t key (S i) p
           end
  end.

(** The outer loop: after a run of linear probes the slot index is
    scrambled with the upper bits of the hash. *)
Fixpoint lookkey (fuel : nat) (cmp : bool) (t : list (option Z)) (msk : Z)
  (key i perturb : Z) : option probe :=
  match fuel with
  | O => None
  | S fuel' =>
      let probes := if i + Z.of_nat LINEAR_PROBES <=? msk then LINEAR_PROBES else O in
      match scan cmp t key (Z.to_nat i) probes with
      | Some r => Some r
      | None =>
          let perturb' := Z.shiftr perturb PERTURB_SHIFT in
          lookkey fuel' cmp t msk key (Z.land (i * 5 + 1 + perturb') msk) perturb'
      end
  end.

Definition probe_fuel (msk : Z) : nat := Z.to_nat (64 + 8 * (msk + 1)).

Definition find_slot (cmp : bool) (t : list (option Z)) (msk key : Z) : option probe :=
  let h := size_t (hash key) in
  lookkey (probe_fuel msk) cmp t msk key (Z.land h msk) h.

Definition set_insert_clean (t : list (option Z)) (msk key : Z) : list (option Z) :=
  match find_slot false t msk key with
  | Some (Unused j) => store j key t
  | _ => t
  end.

Fixpoint grow (fuel : nat) (newsize minused : Z) : Z :=
  match fuel with
  | O => newsize
  | S fuel' => if newsize <=? minused then grow fuel' (Z.shiftl newsize 1) minused else newsize
  end.

Definition keys (t : list (option Z)) : list Z :=
  flat_map (fun e => match e with Some k => [k] | None => [] end) t.

Definition set_table_resize (so : setobject) (minused : Z) : setobject :=
  let newsize := grow 64 PySet_MINSIZE minused in
  let newmask := newsize - 1 in
  {| table := fold_left (fun t k => set_insert_clean t newmask k) (keys (table so))
                        (empty_table newsize);
     mask := newmask;
     fill := fill so |}.

Definition set_add_entry (so : setobject) (key : Z) : setobject :=
  match find_slot true (table so) (mask so) key with
  | Some (Unused j) =>
      let so' := {| table := store j key (table so); mask := mask so; fill := fill so + 1 |} in
      if fill so' * 5 <? mask so' * 3 then so'
      else set_table_resize so' (if 50000 <? fill so' then fill so' * 2 else fill so' * 4)
  | _ => so
  end.

(** [set(xs)] for a sequence that is not itself a set. *)
Definition set_new (xs : list Z) : setobject :=
  fold_left set_add_entry xs set_empty.

(** [set_merge(so, other)]: one resize up front, then one of three copy
    loops. *)
Definition set_merge (so other : setobject) : setobject :=
  if fill other =? 0 then so
  else
    let so1 := if mask so * 3 <=? (fill so + fill other) * 5
               then set_table_resize so ((fill so + fill other) * 2)
               else so in
    if (fill so1 =? 0) && (mask so1 =? mask other) then
      {| table := table other; mask := mask so1; fill := fill other |}
    else if fill so1 =? 0 then
      {| table := fold_left (fun t k => set_insert_clean t (mask so1) k)
                            (keys (table other)) (table so1);
         mask := mask so1;
         fill := fill other |}
    else fold_left set_add_entry (keys (table other)) so1.

(** [a | b]: a copy of [a], updated with [b]. *)
Definition set_or (a b : setobject) : setobject :=
  set_merge (set_merge set_empty a) b.

(** [list(set(xs) | set(ys))] *)
Definition union_list (xs ys : list Z) : list Z :=
  keys (table (set_or (set_new xs) (set_new ys))).

End CPython.

(** What the interpreter does, as an instance of the contract: CPython's
    enumeration, checked against the contract on each input, with the
    order of last occurrence as the enumeration of an input on which the
    table model would run out of fuel. *)
Fixpoint nodupb (l : list Z) : bool :=
  match l with
  | [] => true
  | x :: l' => negb (Py.contains x l') && nodupb l'
  end.

Definition enumerates (l xs ys : list Z) : bool :=
  nodupb l
  && forallb (fun i => Py.contains i xs || Py.contains i ys) l
  && forallb (fun i => Py.contains i l) (xs ++ ys).

Definition cpython_union_list (xs ys : list Z) : list Z :=
  let l := CPython.union_list xs ys in
  if enumerates l xs ys then l else nodup Z.eq_dec (xs ++ ys).

(* ================================================================== *)
(** * FAISS: the flat inner-product index                              *)
(* ================================================================== *)

Module Faiss.

Definition vector : Type := list Q.

Fixpoint inner_product (x y : vector) : Q :=
  match x, y with
  | a :: x', b :: y' => (a * b + inner_product x' y')%Q
  | _, _ => 0%Q
  end.

(** [IndexFlatIP]: the stored vectors, row [i] under label [i]. *)
Record IndexFlatIP : Type := { xb : list vector }.

Definition add (index : IndexFlatIP) (vs : list vector) : IndexFlatIP :=
  {| xb := xb index ++ vs |}.

Definition ntotal (index : IndexFlatIP) : nat := List.length (xb index).

(** The value of an unfilled result slot: the lowest finite float32. *)
Definition neutral : Q := inject_Z (- (2 ^ 128 - 2 ^ 104)).

(** [index.search(q, k)] for one query: exact search.  The result always
    has [k] entries: the [min k ntotal] best rows by inner product, best
    first, then slots that were never filled, with label [-1] and score
    [neutral].  FAISS does not promise an order among rows of equal score;
    here the lower label comes first. *)
Definition labelled (index : IndexFlatIP) (q : vector) : list (Z * Q) :=
  combine (map Z.of_nat (seq 0 (ntotal index))) (map (inner_product q) (xb index)).

Definition best (index : IndexFlatIP) (q : vector) (k : nat) : list (Z * Q) :=
  firstn k (Py.sorted_reverse snd (labelled index q)).

Definition search (index : IndexFlatIP) (q : vector) (k : nat) : list Q * list Z :=
  let found := best index q k in
  let res := found ++ repeat (-1, neutral) (k - List.length found) in
  (map snd res, map fst res).

End Faiss.

(* ================================================================== *)
(** * pandas: frames with a RangeIndex                                 *)
(* ================================================================== *)

(** The columns of the movie table that the recommender returns. *)
Record movie : Type := {
  id : Z;
  title : string;
  overview : string;
  vote_average : Q;
  genres_str : string
}.

Definition frame : Type := list movie.

(** Positional indexing as numpy and [iloc] do it: a negative position
    counts from the end; anything else out of range is an error. *)
Definition position (n : nat) (i : Z) : option nat :=
  if (0 <=? i) && (i <? Z.of_nat n) then Some (Z.to_nat i)
  else if (- Z.of_nat n <=? i) && (i <? 0) then Some (Z.to_nat (Z.of_nat n + i))
  else None.

Definition getitem {A : Type} (l : list A) (i : Z) : option A :=
  match position (List.length l) i with
  | Some p => nth_error l p
  | None => None
  end.

(** A row of a derived frame: it keeps the label it had in the movie
    table, and carries the numeric columns added since (name, value).  Of
    the columns of the movie table only the five of [movie] are followed;
    both functions select them at the end. *)
Record labelled_row : Type := {
  label : Z;
  row : movie;
  added : list (string * Q)
}.

(** [df.iloc[ixs]] for a list of positions. *)
Fixpoint iloc (df : frame) (ixs : list Z) : Py.exn + list labelled_row :=
  match ixs with
  | [] => inr []
  | i :: ixs' =>
      match position (List.length df) i, iloc df ixs' with
      | Some p, inr rows =>
          match nth_error df p with
          | Some m => inr ({| label := Z.of_nat p; row := m; added := [] |} :: rows)
          | None => inl (Py.IndexError "positional indexers are out-of-bounds")
          end
      | None, _ => inl (Py.IndexError "positional indexers are out-of-bounds")
      | _, inl e => inl e
      end
  end.

(** [recs[name] = recs.apply(f, axis=1)]: a new last column. *)
Definition with_column (name : string) (f : movie -> Q) (recs : list labelled_row)
  : list labelled_row :=
  map (fun r => {| label := label r; row := row r;
                   added := added r ++ [(name, f (row r))] |}) recs.

(** [recs[[...]]]: of the added columns, those that are named. *)
Definition select (names : list string) (recs : list labelled_row) : list labelled_row :=
  map (fun r => {| label := label r; row := row r;
                   added := filter (fun c => existsb (String.eqb (fst c)) names) (added r) |})
      recs.

(** The value of a column of a row, if the row has it. *)
Fixpoint column (name : string) (cols : list (string * Q)) : option Q :=
  match cols with
  | [] => None
  | (n, v) :: cols' => if String.eqb n name then Some v else column name cols'
  end.

(** [df.loc[label, "genres_str"]]: lookup by label, no wrap-around. *)
Definition loc_genres (df : frame) (label : Z) : Py.exn + string :=
  if (0 <=? label) && (label <? Z.of_nat (List.length df)) then
    match nth_error df (Z.to_nat label) with
    | Some m => inr (genres_str m)
    | None => inl (Py.KeyError label)
    end
  else inl (Py.KeyError label).

(* ================================================================== *)
(** * Dictionaries from movie id to row                                *)
(* ================================================================== *)

(** Only [in] and [d[k]] are used; the most recent binding of a key is
    the first in the list. *)
Definition dict : Type := list (Z * Z).

Fixpoint dict_get (d : dict) (k : Z) : option Z :=
  match d with
  | [] => None
  | (k', v) :: d' => if k' =? k then Some v else dict_get d' k
  end.

Definition dict_in (k : Z) (d : dict) : bool :=
  match dict_get d k with
  | Some _ => true
  | None => false
  end.

Definition dict_set (d : dict) (k v : Z) : dict := (k, v) :: d.

(** [{mid: idx for idx, mid in enumerate(movie_ids)}] *)
Definition enumerate (l : list Z) : list (Z * Z) :=
  combine (map Z.of_nat (seq 0 (List.length l))) l.

Definition build_id_to_index (movie_ids : list Z) : dict :=
  fold_left (fun d p => dict_set d (snd p) (fst p)) (enumerate movie_ids) [].

(* ================================================================== *)
(** * Calls with a trace of vector work                                *)
(* ================================================================== *)

(** A call either raises or returns, and leaves a trace of the reads of
    the embedding matrix and of the searches it made. *)
Inductive event : Type :=
| GetEmbedding (row : Z)
| IndexSearch (query : Faiss.vector) (k : nat).

Definition M (A : Type) : Type := list event -> (Py.exn + A) * list event.

Definition ret {A : Type} (a : A) : M A := fun tr => (inr a, tr).

Definition raise {A : Type} (e : Py.exn) : M A := fun tr => (inl e, tr).

Definition bind {A B : Type} (c : M A) (f : A -> M B) : M B :=
  fun tr =>
    match c tr with
    | (inr a, tr') => f a tr'
    | (inl e, tr') => (inl e, tr')
    end.

Definition emit (ev : event) : M unit := fun tr => (inr tt, tr ++ [ev]).

Definition lift {A : Type} (r : Py.exn + A) : M A := fun tr => (r, tr).

Declare Scope m_scope.
Delimit Scope m_scope with m.
Notation "x <- c ;; k" := (bind c (fun x => k))
  (at level 61, c at next level, right associativity) : m_scope.
Local Open Scope m_scope.

(* ================================================================== *)
(** * utils/embeddings.py: EmbeddingManager                            *)
(* ================================================================== *)

Record EmbeddingManager : Type := {
  embeddings : list Faiss.vector;
  index : Faiss.IndexFlatIP;
  id_to_index : dict
}.

(** [_build_index]: a fresh flat index holding all the embeddings. *)
Definition _build_index (embs : list Faiss.vector) : Faiss.IndexFlatIP :=
  Faiss.add {| Faiss.xb := [] |} embs.

(** [build_embeddings], given the matrix that the encoder or the cache
    file supplies. *)
Definition build_embeddings (embs : list Faiss.vector) (movie_ids : list Z)
  : EmbeddingManager :=
  {| embeddings := embs;
     index := _build_index embs;
     id_to_index := build_id_to_index movie_ids |}.

(** [search_similar]: the query is one vector, reshaped to a [1 x D]
    matrix; row 0 of each result matrix is returned. *)
Definition search_similar (self : EmbeddingManager) (query_embedding : Faiss.vector)
  (k : nat) : list Q * list Z :=
  Faiss.search (index self) query_embedding k.

(** [self.embeddings[idx]] as a traced read. *)
Definition read_embedding (self : EmbeddingManager) (idx : Z) : M Faiss.vector :=
  _ <- emit (GetEmbedding idx) ;;
  match getitem (embeddings self) idx with
  | Some v => ret v
  | None => raise (Py.IndexError "index is out of bounds for axis 0")
  end.

(** [search_similar] as a traced call. *)
Definition run_search (self : EmbeddingManager) (q : Faiss.vector) (k : nat)
  : M (list Q * list Z) :=
  _ <- emit (IndexSearch q k) ;;
  ret (search_similar self q k).

(* ================================================================== *)
(** * utils/recommender.py: MovieRecommender                           *)
(* ================================================================== *)

Record MovieRecommender : Type := {
  emb_manager : EmbeddingManager;
  movies_df : frame
}.

(** [self.id_to_index] is an alias of the manager's dictionary. *)
Definition self_id_to_index (self : MovieRecommender) : dict :=
  id_to_index (emb_manager self).

(** The ranking statements of [recommend], which [recommend_movies]
    repeats word for word.  A search result is the pair (scores, idxs). *)
Section Ranking.
Variable order : set_order.
Variables res1 res2 : list Q * list Z.

Let scores1 := fst res1.
Let idxs1 := snd res1.
Let scores2 := fst res2.
Let idxs2 := snd res2.

(** [combined = list(set1 | set2)] *)
Definition combined : list Z := union_list order idxs1 idxs2.

(** [scores[list(idxs).index(i)] if i in set(idxs) else 0]; both arrays
    of a result have the same length. *)
Definition score_or_zero (scores : list Q) (idxs : list Z) (i : Z) : Q :=
  if Py.contains i idxs then
    match Py.index i idxs with
    | Some p => nth p scores 0%Q
    | None => 0%Q
    end
  else 0%Q.

Definition blended_score (i : Z) : Q :=
  let s1 := score_or_zero scores1 idxs1 i in
  let s2 := score_or_zero scores2 idxs2 i in
  Py.min s1 s2.

(** [ranked = sorted(combined, key=blended_score, reverse=True)] *)
Definition ranked : list Z := Py.sorted_reverse blended_score combined.

(** [[i for i in ranked if i not in (idx1, idx2)]] *)
Definition without_seeds (idx1 idx2 : Z) (l : list Z) : list Z :=
  filter (fun i => negb ((i =? idx1) || (i =? idx2))) l.

(** [ranked[:top_n]] after the seeds are removed. *)
Definition window (idx1 idx2 top_n : Z) : list Z :=
  Py.slice_to (without_seeds idx1 idx2 ranked) top_n.
End Ranking.

(** [_get_combined_genres] *)
Definition _get_combined_genres (self : MovieRecommender) (idx1 idx2 : Z)
  : Py.exn + list string :=
  match loc_genres (movies_df self) idx1, loc_genres (movies_df self) idx2 with
  | inr genres1, inr genres2 =>
      inr (Py.str_set (Py.split (genres1 ++ " " ++ genres2)%string))
  | inl e, _ => inl e
  | _, inl e => inl e
  end.

(** The constant [1e-9]. *)
Definition epsilon : Q := 1 # 1000000000.

(** [_genre_bonus] *)
Definition _genre_bonus (r : movie) (seed_genres : list string) : Q :=
  let movie_genres := Py.str_set (Py.split (genres_str r)) in
  let overlap := Py.inter_len movie_genres seed_genres in
  (inject_Z (Z.of_nat overlap) / (inject_Z (Z.of_nat (List.length seed_genres)) + epsilon))%Q.

(** [recommend].  The test [not in ... or not in ...] and the two
    dictionary reads that follow it are one [match].  (For an empty window,
    which needs [top_n <= 0], [apply] has no row to visit; the theorems
    below are about positive [top_n].) *)
Definition recommend (order : set_order) (self : MovieRecommender)
  (movie_id1 movie_id2 top_n : Z) : M (list labelled_row) :=
  match dict_get (self_id_to_index self) movie_id1,
        dict_get (self_id_to_index self) movie_id2 with
  | Some idx1, Some idx2 =>
      emb1 <- read_embedding (emb_manager self) idx1 ;;
      emb2 <- read_embedding (emb_manager self) idx2 ;;
      res1 <- run_search (emb_manager self) emb1 40 ;;
      res2 <- run_search (emb_manager self) emb2 40 ;;
      recs <- lift (iloc (movies_df self) (window order res1 res2 idx1 idx2 top_n)) ;;
      seed_genres <- lift (_get_combined_genres self idx1 idx2) ;;
      let recs := with_column "genre_score" (fun r => _genre_bonus r seed_genres) recs in
      ret (select ["id"; "title"; "overview"; "vote_average"; "genres_str"; "genre_score"]%string
                  recs)
  | _, _ => raise (Py.ValueError "One or both movie IDs not found")
  end.

(* ================================================================== *)
(** * app.py: recommend_movies                                         *)
(* ================================================================== *)

(** The script keeps [movies], [embeddings], [index] and [id_to_index] in
    module-level variables; they are read here from the same record.  The
    function returns either a message or a frame. *)
Definition recommend_movies (order : set_order) (g : MovieRecommender)
  (movie_id1 movie_id2 top_n : Z) : M (string + list labelled_row) :=
  match dict_get (self_id_to_index g) movie_id1,
        dict_get (self_id_to_index g) movie_id2 with
  | Some idx1, Some idx2 =>
      emb1 <- read_embedding (emb_manager g) idx1 ;;
      emb2 <- read_embedding (emb_manager g) idx2 ;;
      res1 <- run_search (emb_manager g) emb1 40 ;;
      res2 <- run_search (emb_manager g) emb2 40 ;;
      recs <- lift (iloc (movies_df g) (window order res1 res2 idx1 idx2 top_n)) ;;
      seed_genres <- lift (_get_combined_genres g idx1 idx2) ;;
      let recs := with_column "score" (fun r => _genre_bonus r seed_genres) recs in
      ret (inr (select ["id"; "title"; "overview"; "vote_average"; "genres_str"]%string recs))
  | _, _ => ret (inl "Movie ID not found"%string)
  end.

(** [initialize_system] of app/app.py, for a given embedding matrix. *)
Definition initialize_system (movies : frame) (embs : list Faiss.vector)
  : MovieRecommender :=
  {| emb_manager := build_embeddings embs (map id movies);
     movies_df := movies |}.


(* ================================================================== *)
(** * utils/embeddings.py: get_embedding                               *)
(* ================================================================== *)

(** [f"{n}"] for an integer: its decimal numeral. *)
Definition str_of_int (n : Z) : string := NilZero.string_of_int (Z.to_int n).

(** [get_embedding] *)
Definition get_embedding (self : EmbeddingManager) (movie_id : Z) : M Faiss.vector :=
  match dict_get (id_to_index self) movie_id with
  | None => raise (Py.ValueError ("Movie ID " ++ str_of_int movie_id ++ " not found")%string)
  | Some idx => read_embedding self idx
  end.


(* ================================================================== *)
(** * utils/data_loader.py and app.py: clean_genres, clean_keywords    *)
(* ================================================================== *)

(** A cell of the [genres] or [keywords] column as read from the CSV file:
    missing, a text, or a value of another type. *)
Inductive cell : Type :=
| NaN
| Text (s : string)
| NotText.

(** The values [ast.literal_eval] can return.  [PyScalar] stands for
    [None], a boolean or a number: none of them can be iterated or
    subscripted.  A dictionary is given by its items, a [bytes] value by
    its length (its elements are integers). *)
#[local] Set Warnings "-register-all".
Inductive py_value : Type :=
| PyScalar
| PyStr (s : string)
| PyBytes (len : nat)
| PyList (l : list py_value)
| PyTuple (l : list py_value)
| PySet (l : list py_value)
| PyDict (items : list (py_value * py_value)).

(** [for g in v]: the elements visited; [None] is the TypeError of a value
    that is not iterable. *)
Definition py_iter (v : py_value) : option (list py_value) :=
  match v with
  | PyScalar => None
  | PyStr s => Some (map (fun c => PyStr (String c EmptyString)) (list_ascii_of_string s))
  | PyBytes len => Some (repeat PyScalar len)
  | PyList l => Some l
  | PyTuple l => Some l
  | PySet l => Some l
  | PyDict items => Some (map fst items)
  end.

(** [g['name']]: the value under the key ['name'] of a dictionary; [None]
    is the KeyError of a dictionary without that key or the TypeError of
    any other value. *)
Fixpoint lookup_name (items : list (py_value * py_value)) : option py_value :=
  match items with
  | [] => None
  | (PyStr k, v) :: items' => if String.eqb k "name" then Some v else lookup_name items'
  | _ :: items' => lookup_name items'
  end.

Definition subscript_name (g : py_value) : option py_value :=
  match g with
  | PyDict items => lookup_name items
  | _ => None
  end.

(** [[g['name'] for g in v]], then the check that [join] makes that every
    item is a text. *)
Fixpoint names_of (gs : list py_value) : option (list string) :=
  match gs with
  | [] => Some []
  | g :: gs' =>
      match subscript_name g, names_of gs' with
      | Some (PyStr n), Some ns => Some (n :: ns)
      | _, _ => None
      end
  end.

(** [clean_genres], which [clean_keywords] repeats word for word.  Every
    exception is caught by the bare [except] and gives the empty text;
    [literal_eval] is the parser of the Python library, [None] when it
    raises. *)
Section Clean.
Variable literal_eval : string -> option py_value.

Definition clean_genres (genres : cell) : string :=
  match genres with
  | NaN => ""
  | NotText => ""
  | Text s =>
      if String.eqb s "[]" then ""
      else
        match literal_eval s with
        | None => ""
        | Some genre_list =>
            match py_iter genre_list with
            | None => ""
            | Some gs =>
                match names_of gs with
                | Some names => String.concat " " names
                | None => ""
                end
            end
        end
  end.

Definition clean_keywords (kw : cell) : string := clean_genres kw.
End Clean.

(** A parser that knows one text, for the examples. *)
Definition literal_eval_example (s : string) : option py_value :=
  if String.eqb s "[{'id': 18, 'name': 'Drama'}, {'id': 878, 'name': 'Science Fiction'}]"
  then Some (PyList [ PyDict [(PyStr "id", PyScalar); (PyStr "name", PyStr "Drama")];
                      PyDict [(PyStr "id", PyScalar);
                              (PyStr "name", PyStr "Science Fiction")] ])
  else None.

(* ================================================================== *)
(** * app/app.py and app.py: the page                                  *)
(* ================================================================== *)

(** [movies_df[movies_df['title'] == selected]['id'].values[0]] *)
Definition selected_id (df : frame) (selected : string) : Py.exn + Z :=
  match filter (fun m => String.eqb (title m) selected) df with
  | m :: _ => inr (id m)
  | [] => inl (Py.IndexError "index 0 is out of bounds for axis 0 with size 0")
  end.

(** [range(start, stop, step)] for a positive step. *)
Fixpoint range_from (fuel start stop step : nat) : list nat :=
  match fuel with
  | O => []
  | S fuel' =>
      if (start <? stop)%nat then start :: range_from fuel' (start + step) stop step
      else []
  end.

Definition range (start stop step : nat) : list nat :=
  range_from (stop - start) start stop step.

(** [xs[i:j]] for [0 <= i <= j]. *)
Definition slice {A : Type} (xs : list A) (i j : nat) : list A :=
  firstn (j - i) (skipn i xs).

(** The grid of recommendations: for each [i] in [range(0, len(recs), 3)]
    a row of three columns, the entries [recs[i:i+3]] each with the index
    of the column it is drawn in. *)
Definition grid (recs : list labelled_row) : list (list (nat * labelled_row)) :=
  map (fun i => let shown := slice recs i (i + 3) in
                combine (seq 0 (List.length shown)) shown)
      (range 0 (List.length recs) 3).

(* ================================================================== *)
(** * The properties under study, as predicates                        *)
(* ================================================================== *)

(** A system put together as [initialize_system] does, from a table and a
    matrix with one row per movie. *)
Definition well_formed (self : MovieRecommender) : Prop :=
  index (emb_manager self) = _build_index (embeddings (emb_manager self))
  /\ List.length (embeddings (emb_manager self)) = List.length (movies_df self)
  /\ forall k v, dict_get (self_id_to_index self) k = Some v ->
                 0 <= v < Z.of_nat (List.length (movies_df self)).

(** Ties in ascending row order: of two entries with equal keys, the one
    that comes first has the smaller row index. *)
Definition tie_ascending (key : Z -> Q) (l : list Z) : Prop :=
  forall l1 x l2 y l3,
    l = l1 ++ x :: l2 ++ y :: l3 -> (key x == key y)%Q -> x < y.

Fixpoint tie_ascendingb (key : Z -> Q) (l : list Z) : bool :=
  match l with
  | [] => true
  | x :: l' =>
      forallb (fun y => negb (Qeq_bool (key x) (key y)) || (x <? y)) l'
      && tie_ascendingb key l'
  end.

(** The similarity of row [i] in a result list, with 0 for a row that is
    not listed: the score paired with the label [i]. *)
Definition similarity_or_zero (res : list Q * list Z) (i : Z) : Q :=
  match find (fun p => fst p =? i) (combine (snd res) (fst res)) with
  | Some p => snd p
  | None => 0%Q
  end.

(** A list of (score, row) results for the query [q] over the vectors
    [vs]: best first, every row valid, every score the inner product with
    its row. *)
Definition ranked_rows (vs : list Faiss.vector) (q : Faiss.vector)
  (res : list Q * list Z) : Prop :=
  List.length (fst res) = List.length (snd res)
  /\ StronglySorted (fun a b => (b <= a)%Q) (fst res)
  /\ NoDup (snd res)
  /\ forall p i, nth_error (snd res) p = Some i ->
       0 <= i < Z.of_nat (List.length vs)
       /\ nth_error (fst res) p = Some (Faiss.inner_product q (nth (Z.to_nat i) vs [])).

(** The result the search is said to have: [min k N] ranked rows. *)
Definition exact_result (vs : list Faiss.vector) (q : Faiss.vector) (k : nat)
  (res : list Q * list Z) : Prop :=
  List.length (snd res) = Nat.min k (List.length vs) /\ ranked_rows vs q res.

(** The result it has: [k] entries, of which the first [min k N] are
    ranked rows and the others are unfilled slots. *)
Definition padded_result (vs : list Faiss.vector) (q : Faiss.vector) (k : nat)
  (res : list Q * list Z) : Prop :=
  let n := Nat.min k (List.length vs) in
  List.length (fst res) = k
  /\ List.length (snd res) = k
  /\ exact_result vs q k (firstn n (fst res), firstn n (snd res))
  /\ skipn n (snd res) = repeat (-1) (k - n)
  /\ skipn n (fst res) = repeat Faiss.neutral (k - n).

(** The genre score in the words of the specification: the number of
    distinct tokens of the movie that are tokens of a seed, over the
    number of distinct seed tokens plus [1e-9]. *)
Definition card (l : list string) : nat := List.length (nodup string_dec l).

Definition seed_genre_set (genres1 genres2 : string) : list string :=
  Py.split genres1 ++ Py.split genres2.

Definition common (a b : list string) : list string :=
  filter (fun s => if in_dec string_dec s b then true else false) a.

Definition genre_overlap_ratio (genres genres1 genres2 : string) : Q :=
  (inject_Z (Z.of_nat (card (common (Py.split genres) (seed_genre_set genres1 genres2))))
   / (inject_Z (Z.of_nat (card (seed_genre_set genres1 genres2))) + epsilon))%Q.

(** The labels and the identifiers of a returned frame. *)
Definition labels (recs : list labelled_row) : list Z := map label recs.

Definition ids (recs : list labelled_row) : list Z := map (fun r => id (row r)) recs.

(** The frames that the two functions return, given the rows of the
    window and the seed genres. *)
Definition scored (seed_genres : list string) (recs : list labelled_row)
  : list labelled_row :=
  map (fun r => {| label := label r; row := row r;
                   added := [("genre_score"%string, _genre_bonus (row r) seed_genres)] |})
      recs.

Definition unscored (recs : list labelled_row) : list labelled_row :=
  map (fun r => {| label := label r; row := row r; added := [] |}) recs.

(** The labels of a returned frame, none if the call raised. *)
Definition returned_labels (r : Py.exn + list labelled_row) : list Z :=
  match r with
  | inr recs => labels recs
  | inl _ => []
  end.

(** How an entry of the window shows in the returned frame: as the row at
    that position of the movie table. *)
Definition row_at (df : frame) (i : Z) (r : labelled_row) : Prop :=
  exists p, position (List.length df) i = Some p
            /\ label r = Z.of_nat p
            /\ nth_error df p = Some (row r).

(* ================================================================== *)
(** * Two catalogues                                                   *)
(* ================================================================== *)

(** Three movies, with unit vectors in the plane. *)
Definition toy_movies : frame :=
  [ {| id := 101; title := "Alpha"; overview := "first"; vote_average := 7;
       genres_str := "Action Drama" |};
    {| id := 102; title := "Beta"; overview := "second"; vote_average := 6;
       genres_str := "Drama" |};
    {| id := 103; title := "Gamma"; overview := "third"; vote_average := 8;
       genres_str := "Science Fiction" |} ].

Definition toy_embeddings : list Faiss.vector :=
  [ [1; 0]; [3 # 5; 4 # 5]; [0; 1] ]%Q.

Definition toy : MovieRecommender := initialize_system toy_movies toy_embeddings.

(** Three hundred movies on an arc of the unit circle: row [i] is the
    point of parameter [t = i / 1000], that is
    [((1 - t^2) / (1 + t^2), 2 t / (1 + t^2))].  The similarity of two rows
    decreases with the distance of their positions, so the 40 neighbours
    of row 0 are rows 0..39 and those of row 299 are rows 260..299. *)
Definition arc_vector (i : Z) : Faiss.vector :=
  [ (1000000 - i * i) # Z.to_pos (1000000 + i * i);
    (2000 * i) # Z.to_pos (1000000 + i * i) ].

Definition arc_movie (i : Z) : movie :=
  {| id := 5000 + i; title := "Movie"; overview := ""; vote_average := 5;
     genres_str := if Z.even i then "Comedy" else "Thriller Crime" |}.

Definition arc_rows : list Z := map Z.of_nat (seq 0 300).

Definition arc : MovieRecommender :=
  initialize_system (map arc_movie arc_rows) (map arc_vector arc_rows).

(* ================================================================== *)
(** * Facts about the runtime                                          *)
(* ================================================================== *)

Lemma py_min_Qmin (a b : Q) : Py.min a b = Qmin a b.
Proof.
  unfold Py.min, Qmin, GenericMinMax.gmin.
  rewrite <- (Qcompare_antisym a b).
  destruct (Qcompare a b); reflexivity.
Qed.

Lemma contains_In (i : Z) (xs : list Z) : Py.contains i xs = true <-> In i xs.
Proof.
  unfold Py.contains. rewrite existsb_exists. split.
  - intros [x [Hin Heq]]. apply Z.eqb_eq in Heq. subst. exact Hin.
  - intros Hin. exists i. split; [exact Hin | apply Z.eqb_refl].
Qed.

Lemma contains_false (i : Z) (xs : list Z) : Py.contains i xs = false <-> ~ In i xs.
Proof.
  rewrite <- contains_In. destruct (Py.contains i xs); split; congruence.
Qed.

Section SortedFacts.
Context {A : Type} (key : A -> Q).

(** Descending order of keys. *)
Definition key_ge (x y : A) : Prop := (key y <= key x)%Q.

Lemma insert_desc_perm (x : A) (l : list A) :
  Permutation (Py.insert_desc key x l) (x :: l).
Proof.
  induction l as [|y l IH]; simpl.
  - apply Permutation_refl.
  - destruct (Qcompare (key x) (key y)); try apply Permutation_refl.
    eapply perm_trans; [apply perm_skip, IH | apply perm_swap].
Qed.

Lemma sorted_reverse_perm (l : list A) : Permutation (Py.sorted_reverse key l) l.
Proof.
  induction l as [|x l IH]; simpl.
  - apply perm_nil.
  - eapply perm_trans; [apply insert_desc_perm | apply perm_skip, IH].
Qed.

Lemma sorted_reverse_In (l : list A) (x : A) :
  In x (Py.sorted_reverse key l) <-> In x l.
Proof.
  split; apply Permutation_in;
    [apply sorted_reverse_perm | apply Permutation_sym, sorted_reverse_perm].
Qed.

Lemma sorted_reverse_length (l : list A) :
  List.length (Py.sorted_reverse key l) = List.length l.
Proof. apply Permutation_length, sorted_reverse_perm. Qed.

Lemma insert_desc_sorted (x : A) (l : list A) :
  StronglySorted key_ge l -> StronglySorted key_ge (Py.insert_desc key x l).
Proof.
  induction l as [|y l IH]; intros Hs; simpl.
  - constructor; constructor.
  - inversion Hs as [|y' l' Hl Hall]; subst.
    destruct (Qcompare (key x) (key y)) eqn:Hc.
    + constructor; [exact Hs |].
      apply Qeq_alt in Hc. constructor.
      * unfold key_ge. rewrite Hc. apply Qle_refl.
      * rewrite Forall_forall in *. intros z Hz. unfold key_ge in *.
        rewrite Hc. apply Hall, Hz.
    + apply Qlt_alt in Hc. constructor; [apply IH, Hl |].
      rewrite Forall_forall in *. intros z Hz.
      apply (Permutation_in _ (insert_desc_perm x l)) in Hz.
      destruct Hz as [<- | Hz]; [apply Qlt_le_weak, Hc | apply Hall, Hz].
    + constructor; [exact Hs |].
      apply Qgt_alt in Hc. constructor.
      * apply Qlt_le_weak, Hc.
      * rewrite Forall_forall in *. intros z Hz. unfold key_ge in *.
        apply Qle_trans with (key y); [apply Hall, Hz | apply Qlt_le_weak, Hc].
Qed.

Lemma sorted_reverse_sorted (l : list A) :
  StronglySorted key_ge (Py.sorted_reverse key l).
Proof.
  induction l as [|x l IH]; simpl.
  - constructor.
  - apply insert_desc_sorted, IH.
Qed.

(** Stability: the elements of any one key value come out in the order
    they went in. *)
Lemma insert_desc_filter (c : Q) (x : A) (l : list A) :
  filter (fun y => Qeq_bool (key y) c) (Py.insert_desc key x l)
  = filter (fun y => Qeq_bool (key y) c) (x :: l).
Proof.
  induction l as [|y l IH].
  - reflexivity.
  - cbn [Py.insert_desc]. destruct (Qcompare (key x) (key y)) eqn:Hc; try reflexivity.
    apply Qlt_alt in Hc.
    cbn [filter] in *. rewrite IH.
    destruct (Qeq_bool (key x) c) eqn:Hx; [| reflexivity].
    destruct (Qeq_bool (key y) c) eqn:Hy; [| reflexivity].
    apply Qeq_bool_iff in Hx, Hy. rewrite Hx, Hy in Hc.
    exfalso. exact (Qlt_irrefl _ Hc).
Qed.

Lemma sorted_reverse_stable (c : Q) (l : list A) :
  filter (fun y => Qeq_bool (key y) c) (Py.sorted_reverse key l)
  = filter (fun y => Qeq_bool (key y) c) l.
Proof.
  induction l as [|x l IH].
  - reflexivity.
  - cbn [Py.sorted_reverse fold_right]. rewrite insert_desc_filter.
    cbn [filter]. fold (Py.sorted_reverse key l). rewrite IH. reflexivity.
Qed.

End SortedFacts.

(** ** The two enumerations satisfy the contract *)

Lemma nodupb_NoDup (l : list Z) : nodupb l = true -> NoDup l.
Proof.
  induction l as [|x l IH]; simpl; intros H.
  - constructor.
  - apply andb_prop in H as [Hx Hl]. constructor; [| apply IH, Hl].
    apply contains_false. destruct (Py.contains x l); [discriminate | reflexivity].
Qed.

Lemma cpython_union_list_NoDup (xs ys : list Z) : NoDup (cpython_union_list xs ys).
Proof.
  unfold cpython_union_list.
  destruct (enumerates (CPython.union_list xs ys) xs ys) eqn:He.
  - unfold enumerates in He. apply andb_prop in He as [He _].
    apply andb_prop in He as [He _]. apply nodupb_NoDup, He.
  - apply NoDup_nodup.
Qed.

Lemma cpython_union_list_In (xs ys : list Z) (i : Z) :
  In i (cpython_union_list xs ys) <-> In i xs \/ In i ys.
Proof.
  unfold cpython_union_list.
  destruct (enumerates (CPython.union_list xs ys) xs ys) eqn:He.
  - unfold enumerates in He. apply andb_prop in He as [He Hsup].
    apply andb_prop in He as [_ Hsub].
    rewrite forallb_forall in Hsub, Hsup. split.
    + intros Hin. apply Hsub in Hin. apply orb_prop in Hin.
      destruct Hin as [H | H]; apply contains_In in H; auto.
    + intros Hin. apply contains_In, Hsup, in_app_iff, Hin.
  - rewrite nodup_In. apply in_app_iff.
Qed.

(** The interpreter's order. *)
Definition cpython : set_order :=
  {| union_list := cpython_union_list;
     union_list_NoDup := cpython_union_list_NoDup;
     union_list_In := cpython_union_list_In |}.

Lemma last_seen_In (xs ys : list Z) (i : Z) :
  In i (nodup Z.eq_dec (xs ++ ys)) <-> In i xs \/ In i ys.
Proof. rewrite nodup_In. apply in_app_iff. Qed.

(** Another order that the contract allows: by last occurrence. *)
Definition last_seen : set_order :=
  {| union_list := fun xs ys => nodup Z.eq_dec (xs ++ ys);
     union_list_NoDup := fun xs ys => NoDup_nodup Z.eq_dec (xs ++ ys);
     union_list_In := last_seen_In |}.

(** ** The flat index *)

Lemma map_fst_combine {A B : Type} (l : list A) (l' : list B) :
  List.length l = List.length l' -> map fst (combine l l') = l.
Proof.
  revert l'. induction l as [|a l IH]; intros [|b l'] Hlen; simpl in *;
    try reflexivity; try discriminate.
  f_equal. apply IH. lia.
Qed.

Lemma firstn_In {A : Type} (n : nat) (l : list A) (x : A) :
  In x (firstn n l) -> In x l.
Proof.
  revert l. induction n as [|n IH]; intros [|y l] Hin; simpl in *;
    try contradiction.
  destruct Hin as [-> | Hin]; [left; reflexivity | right; apply IH, Hin].
Qed.

Lemma labelled_length (ix : Faiss.IndexFlatIP) (q : Faiss.vector) :
  List.length (Faiss.labelled ix q) = Faiss.ntotal ix.
Proof.
  unfold Faiss.labelled. rewrite length_combine, !length_map, length_seq.
  unfold Faiss.ntotal. apply Nat.min_id.
Qed.

Lemma labelled_fst (ix : Faiss.IndexFlatIP) (q : Faiss.vector) :
  map fst (Faiss.labelled ix q) = map Z.of_nat (seq 0 (Faiss.ntotal ix)).
Proof.
  unfold Faiss.labelled. apply map_fst_combine.
  rewrite !length_map, length_seq. reflexivity.
Qed.

(** Every entry of the table of scores is a row with its inner product. *)
Lemma labelled_In (ix : Faiss.IndexFlatIP) (q : Faiss.vector) (l : Z) (s : Q) :
  In (l, s) (Faiss.labelled ix q) ->
  exists r, l = Z.of_nat r /\ (r < Faiss.ntotal ix)%nat
            /\ s = Faiss.inner_product q (nth r (Faiss.xb ix) []).
Proof.
  unfold Faiss.labelled, Faiss.ntotal.
  generalize (Faiss.xb ix) as vs. intros vs.
  assert (G : forall (ws : list Faiss.vector) (b : nat),
             In (l, s) (combine (map Z.of_nat (seq b (List.length ws)))
                                (map (Faiss.inner_product q) ws)) ->
             exists r, l = Z.of_nat (b + r) /\ (r < List.length ws)%nat
                       /\ s = Faiss.inner_product q (nth r ws [])).
  { induction ws as [|w ws IH]; intros b Hin; simpl in Hin.
    - contradiction.
    - destruct Hin as [Heq | Hin].
      + inversion Heq; subst. exists O. rewrite Nat.add_0_r.
        simpl. repeat split. lia.
      + apply IH in Hin as [r [Hl [Hr Hs]]]. exists (S r).
        simpl. repeat split; [rewrite Hl; f_equal; lia | lia | exact Hs]. }
  intros Hin. apply (G vs O) in Hin as [r H]. exists r. exact H.
Qed.

Lemma best_incl (ix : Faiss.IndexFlatIP) (q : Faiss.vector) (k : nat) (e : Z * Q) :
  In e (Faiss.best ix q k) -> In e (Faiss.labelled ix q).
Proof.
  unfold Faiss.best. intros Hin. apply firstn_In in Hin.
  apply sorted_reverse_In in Hin. exact Hin.
Qed.

Lemma best_length (ix : Faiss.IndexFlatIP) (q : Faiss.vector) (k : nat) :
  List.length (Faiss.best ix q k) = Nat.min k (Faiss.ntotal ix).
Proof.
  unfold Faiss.best. rewrite length_firstn, sorted_reverse_length, labelled_length.
  reflexivity.
Qed.

Lemma StronglySorted_firstn {A : Type} (R : A -> A -> Prop) (n : nat) (l : list A) :
  StronglySorted R l -> StronglySorted R (firstn n l).
Proof.
  revert l. induction n as [|n IH]; intros l Hs; simpl.
  - constructor.
  - destruct l as [|x l]; [constructor |].
    inversion Hs as [|x' l' Hl Hall]; subst. constructor; [apply IH, Hl |].
    rewrite Forall_forall in *. intros y Hy. apply Hall. eapply firstn_In, Hy.
Qed.

Lemma best_sorted (ix : Faiss.IndexFlatIP) (q : Faiss.vector) (k : nat) :
  StronglySorted (key_ge snd) (Faiss.best ix q k).
Proof. apply StronglySorted_firstn, sorted_reverse_sorted. Qed.

Lemma NoDup_firstn {A : Type} (n : nat) (l : list A) : NoDup l -> NoDup (firstn n l).
Proof.
  revert l. induction n as [|n IH]; intros l Hn; simpl.
  - constructor.
  - destruct l as [|x l]; [constructor |].
    inversion Hn; subst. constructor; [| apply IH; assumption].
    intros Hin. apply firstn_In in Hin. contradiction.
Qed.

Lemma best_labels_NoDup (ix : Faiss.IndexFlatIP) (q : Faiss.vector) (k : nat) :
  NoDup (map fst (Faiss.best ix q k)).
Proof.
  unfold Faiss.best. rewrite <- firstn_map. apply NoDup_firstn.
  apply (Permutation_NoDup (l := map fst (Faiss.labelled ix q))).
  - apply Permutation_map, Permutation_sym, sorted_reverse_perm.
  - rewrite labelled_fst. apply NoDup_map_NoDup_ForallPairs.
    + intros a b _ _ Hab. apply Nat2Z.inj, Hab.
    + apply seq_NoDup.
Qed.

Lemma search_lengths (ix : Faiss.IndexFlatIP) (q : Faiss.vector) (k : nat) :
  List.length (fst (Faiss.search ix q k)) = k
  /\ List.length (snd (Faiss.search ix q k)) = k.
Proof.
  unfold Faiss.search. cbn [fst snd].
  rewrite !length_map, !length_app, !repeat_length, best_length. lia.
Qed.

(** The labels that a search can return. *)
Lemma search_labels (ix : Faiss.IndexFlatIP) (q : Faiss.vector) (k : nat) (i : Z) :
  In i (snd (Faiss.search ix q k)) ->
  i = -1 \/ 0 <= i < Z.of_nat (Faiss.ntotal ix).
Proof.
  unfold Faiss.search. cbn [snd]. rewrite map_app, in_app_iff.
  intros [Hin | Hin].
  - right. apply in_map_iff in Hin as [[l s] [Heq Hin]]. cbn in Heq. subst.
    apply best_incl, labelled_In in Hin as [r [Hl [Hr _]]]. lia.
  - left. apply in_map_iff in Hin as [e [Heq Hin]].
    apply repeat_spec in Hin. subst. reflexivity.
Qed.


(* ================================================================== *)
(** * The vector index (search)                                        *)
(* ================================================================== *)

Lemma StronglySorted_map {A B : Type} (R : B -> B -> Prop) (f : A -> B) (l : list A) :
  StronglySorted (fun a b => R (f a) (f b)) l -> StronglySorted R (map f l).
Proof.
  induction 1 as [|x l Hs IH Hall]; simpl; constructor; [exact IH |].
  rewrite Forall_forall in *. intros y Hy.
  apply in_map_iff in Hy as [z [<- Hz]]. apply Hall, Hz.
Qed.

Lemma build_index_xb (embs : list Faiss.vector) : Faiss.xb (_build_index embs) = embs.
Proof. reflexivity. Qed.

Lemma best_ranked_rows (embs : list Faiss.vector) (q : Faiss.vector) (k : nat) :
  let found := Faiss.best (_build_index embs) q k in
  ranked_rows embs q (map snd found, map fst found).
Proof.
  intros found. unfold ranked_rows. cbn [fst snd]. repeat split.
  - rewrite !length_map. reflexivity.
  - apply StronglySorted_map. apply (best_sorted (_build_index embs) q k).
  - apply best_labels_NoDup.
  - rewrite nth_error_map in H.
    destruct (nth_error found p) as [[l s]|] eqn:Hp; [| discriminate].
    cbn in H. injection H as ->.
    apply nth_error_In, best_incl, labelled_In in Hp as [r [Hl [Hr _]]].
    unfold Faiss.ntotal in Hr. rewrite build_index_xb in Hr. lia.
  - rewrite nth_error_map in H.
    destruct (nth_error found p) as [[l s]|] eqn:Hp; [| discriminate].
    cbn in H. injection H as ->.
    apply nth_error_In, best_incl, labelled_In in Hp as [r [Hl [Hr _]]].
    unfold Faiss.ntotal in Hr. rewrite build_index_xb in Hr. lia.
  - rewrite nth_error_map in *.
    destruct (nth_error found p) as [[l s]|] eqn:Hp; [| discriminate].
    cbn in H. injection H as ->. cbn. f_equal.
    apply nth_error_In, best_incl, labelled_In in Hp as [r [Hl [_ Hs]]].
    rewrite build_index_xb in Hs. subst. rewrite Nat2Z.id. reflexivity.
Qed.

(** C4, as the code has it: [search_similar] hands on what FAISS returns,
    which always has [k] entries.  The first [min k N] of them are what the
    specification describes (best first, each score the inner product of the
    query with the row, each row valid and listed once); the remaining
    [k - min k N] are unfilled slots with label [-1] and the lowest float as
    score. *)
Theorem search_similar_padded (embs : list Faiss.vector) (movie_ids : list Z)
  (q : Faiss.vector) (k : nat) :
  padded_result embs q k (search_similar (build_embeddings embs movie_ids) q k).
Proof.
  unfold search_similar, build_embeddings. cbn [index].
  pose proof (best_length (_build_index embs) q k) as Hlen.
  unfold Faiss.ntotal in Hlen. rewrite build_index_xb in Hlen.
  pose proof (best_ranked_rows embs q k) as Hrows. cbv zeta in Hrows.
  unfold padded_result, Faiss.search. cbn [fst snd].
  set (found := Faiss.best (_build_index embs) q k) in *.
  set (n := Nat.min k (List.length embs)) in *.
  rewrite !map_app, !map_repeat. cbn [fst snd].
  assert (Hs : List.length (map snd found) = n) by (rewrite length_map; exact Hlen).
  assert (Hf : List.length (map fst found) = n) by (rewrite length_map; exact Hlen).
  rewrite Hlen.
  refine (conj _ (conj _ (conj (conj _ _) (conj _ _)))).
  - rewrite length_app, repeat_length, Hs. lia.
  - rewrite length_app, repeat_length, Hf. lia.
  - cbn [snd]. rewrite firstn_app, Hf, Nat.sub_diag, firstn_O, app_nil_r.
    rewrite firstn_all2 by lia. exact Hf.
  - rewrite !firstn_app, Hf, Hs, Nat.sub_diag, !firstn_O, !app_nil_r.
    rewrite !firstn_all2 by lia. exact Hrows.
  - rewrite skipn_app, Hf, Nat.sub_diag, skipn_O.
    rewrite skipn_all2 by lia. reflexivity.
  - rewrite skipn_app, Hs, Nat.sub_diag, skipn_O.
    rewrite skipn_all2 by lia. reflexivity.
Qed.

(** X19: when the index holds at least [k] vectors there is no unfilled
    slot: the search returns exactly [k] rows, best first, each a distinct
    valid row with the inner product of the query and that row as score. *)
Lemma search_similar_exact (embs : list Faiss.vector) (movie_ids : list Z)
  (q : Faiss.vector) (k : nat) :
  (k <= List.length embs)%nat ->
  exact_result embs q k (search_similar (build_embeddings embs movie_ids) q k).
Proof.
  intros Hk. unfold search_similar, build_embeddings. cbn [index].
  pose proof (best_length (_build_index embs) q k) as Hlen.
  unfold Faiss.ntotal in Hlen. rewrite build_index_xb in Hlen.
  unfold Faiss.search. rewrite Hlen, Nat.min_l by exact Hk.
  rewrite Nat.sub_diag. cbn [repeat]. rewrite app_nil_r.
  split; [| apply best_ranked_rows].
  cbn [snd]. rewrite length_map, Hlen. reflexivity.
Qed.

(** C4, counterexample: three vectors, [k = 4].  The result has four
    entries, not [min 4 3]. *)
Lemma search_similar_not_exact_toy :
  ~ exact_result toy_embeddings [1; 0]%Q 4
      (search_similar (emb_manager toy) [1; 0]%Q 4).
Proof.
  intros [Hlen _]. vm_compute in Hlen. discriminate.
Qed.

(** The same search, entry by entry. *)
Example search_similar_toy :
  search_similar (emb_manager toy) [1; 0]%Q 4
  = ([1; 15 # 25; 0; Faiss.neutral]%Q, [0; 1; 2; -1]).
Proof. reflexivity. Qed.

(* ================================================================== *)
(** * The ranking step                                                 *)
(* ================================================================== *)

Lemma tie_ascendingb_sound (key : Z -> Q) (l : list Z) :
  tie_ascending key l -> tie_ascendingb key l = true.
Proof.
  induction l as [|x l IH]; intros H; simpl.
  - reflexivity.
  - apply andb_true_intro. split.
    + apply forallb_forall. intros y Hy.
      destruct (Qeq_bool (key x) (key y)) eqn:He; [| reflexivity].
      apply Qeq_bool_iff in He. apply in_split in Hy as [l2 [l3 ->]].
      simpl. apply Z.ltb_lt. apply (H [] x l2 y l3); [reflexivity | exact He].
    + apply IH. intros l1 a l2 b l3 -> Hab.
      apply (H (x :: l1) a l2 b l3); [reflexivity | exact Hab].
Qed.

(** C1, as the code has it: the ranking is the candidate pool, sorted by
    blended score descending, and candidates with equal blended scores
    stay in the order in which the set union enumerates them (the sort is
    stable and has no second key). *)
Theorem ranked_sorted_stable (order : set_order) (res1 res2 : list Q * list Z) :
  Permutation (ranked order res1 res2) (combined order res1 res2)
  /\ StronglySorted (key_ge (blended_score res1 res2)) (ranked order res1 res2)
  /\ forall c : Q,
       filter (fun i => Qeq_bool (blended_score res1 res2 i) c) (ranked order res1 res2)
       = filter (fun i => Qeq_bool (blended_score res1 res2 i) c) (combined order res1 res2).
Proof.
  unfold ranked. split; [| split].
  - apply sorted_reverse_perm.
  - apply sorted_reverse_sorted.
  - intros c. apply sorted_reverse_stable.
Qed.

(** C1, counterexample: the catalogue of 300 movies, seeds at rows 299 and
    0.  All 80 candidates have blended score 0, and the interpreter's set
    lists rows 260, 261, ... before row 4. *)
Lemma ranked_ties_not_ascending_arc :
  ~ tie_ascending
      (blended_score (search_similar (emb_manager arc) (arc_vector 299) 40)
                     (search_similar (emb_manager arc) (arc_vector 0) 40))
      (ranked cpython (search_similar (emb_manager arc) (arc_vector 299) 40)
                      (search_similar (emb_manager arc) (arc_vector 0) 40)).
Proof.
  intros H. apply tie_ascendingb_sound in H. vm_compute in H. discriminate.
Qed.

(** The ranking does depend on the enumeration: two orders that the
    language allows give two rankings of the same pool. *)
Lemma ranked_depends_on_order_toy :
  ranked cpython (search_similar (emb_manager toy) [1; 0]%Q 40)
                 (search_similar (emb_manager toy) [0; 1]%Q 40) = [1; 0; 2; -1]
  /\ ranked last_seen (search_similar (emb_manager toy) [1; 0]%Q 40)
                      (search_similar (emb_manager toy) [0; 1]%Q 40) = [1; 2; 0; -1].
Proof. split; vm_compute; reflexivity. Qed.

Lemma score_or_zero_similarity (scores : list Q) (idxs : list Z) (i : Z) :
  List.length scores = List.length idxs ->
  score_or_zero scores idxs i = similarity_or_zero (scores, idxs) i.
Proof.
  unfold score_or_zero, similarity_or_zero. cbn [fst snd].
  revert scores. induction idxs as [|x idxs IH]; intros [|s scores] Hlen;
    simpl in Hlen; try discriminate; try reflexivity.
  injection Hlen as Hlen. specialize (IH scores Hlen).
  cbn [Py.contains existsb Py.index combine find fst].
  rewrite (Z.eqb_sym i x).
  destruct (x =? i) eqn:Hx; [reflexivity |]. cbn [orb].
  unfold Py.contains in IH.
  destruct (existsb (Z.eqb i) idxs) eqn:Hc.
  - destruct (Py.index i idxs) as [p|]; exact IH.
  - exact IH.
Qed.

(** C2: for a row listed by either search, the blended score is the
    minimum of its two similarities, a similarity being the score paired
    with the row in that seed's list and 0 when the row is not listed; and
    the row occurs exactly once in the candidate pool. *)
Theorem blended_score_min (order : set_order) (self : EmbeddingManager)
  (emb1 emb2 : Faiss.vector) (i : Z) :
  In i (snd (search_similar self emb1 40)) \/ In i (snd (search_similar self emb2 40)) ->
  blended_score (search_similar self emb1 40) (search_similar self emb2 40) i
  = Qmin (similarity_or_zero (search_similar self emb1 40) i)
         (similarity_or_zero (search_similar self emb2 40) i)
  /\ count_occ Z.eq_dec
       (combined order (search_similar self emb1 40) (search_similar self emb2 40)) i = 1%nat.
Proof.
  intros Hin. split.
  - unfold blended_score. rewrite py_min_Qmin.
    destruct (search_lengths (index self) emb1 40) as [Hs1 Hi1].
    destruct (search_lengths (index self) emb2 40) as [Hs2 Hi2].
    unfold search_similar.
    rewrite !score_or_zero_similarity by congruence.
    rewrite <- !surjective_pairing. reflexivity.
  - apply NoDup_count_occ'.
    + apply union_list_NoDup.
    + apply union_list_In. exact Hin.
Qed.

Lemma blended_score_min_toy :
  (In 1 (snd (search_similar (emb_manager toy) [1; 0]%Q 40))
   \/ In 1 (snd (search_similar (emb_manager toy) [0; 1]%Q 40)))
  /\ blended_score (search_similar (emb_manager toy) [1; 0]%Q 40)
                   (search_similar (emb_manager toy) [0; 1]%Q 40) 1
     = Qmin (similarity_or_zero (search_similar (emb_manager toy) [1; 0]%Q 40) 1)
            (similarity_or_zero (search_similar (emb_manager toy) [0; 1]%Q 40) 1)
  /\ count_occ Z.eq_dec
       (combined cpython (search_similar (emb_manager toy) [1; 0]%Q 40)
                         (search_similar (emb_manager toy) [0; 1]%Q 40)) 1 = 1%nat.
Proof.
  assert (H : In 1 (snd (search_similar (emb_manager toy) [1; 0]%Q 40))
              \/ In 1 (snd (search_similar (emb_manager toy) [0; 1]%Q 40))).
  { left. apply contains_In. vm_compute. reflexivity. }
  split; [exact H |].
  exact (blended_score_min cpython (emb_manager toy) [1; 0]%Q [0; 1]%Q 1 H).
Defined.

(** The scores in that example: row 1 has similarity 3/5 to row 0 and 4/5
    to row 2; rows 0 and 2 are orthogonal; the unfilled slot has the lowest
    score in both lists. *)
Example blended_score_toy :
  map (blended_score (search_similar (emb_manager toy) [1; 0]%Q 40)
                     (search_similar (emb_manager toy) [0; 1]%Q 40)) [0; 1; 2; -1]
  = [0; 15 # 25; 0; Faiss.neutral]%Q.
Proof. vm_compute. reflexivity. Qed.

(* ================================================================== *)
(** * Running recommend                                                *)
(* ================================================================== *)

Lemma position_in_range (n : nat) (i : Z) :
  0 <= i < Z.of_nat n -> position n i = Some (Z.to_nat i).
Proof.
  intros H. unfold position.
  destruct (Z.leb_spec 0 i); [| lia]. destruct (Z.ltb_spec i (Z.of_nat n)); [| lia].
  reflexivity.
Qed.

Lemma position_some (n : nat) (i : Z) :
  - Z.of_nat n <= i < Z.of_nat n -> exists p, position n i = Some p /\ (p < n)%nat.
Proof.
  intros H. unfold position.
  destruct (Z.leb_spec 0 i); destruct (Z.ltb_spec i (Z.of_nat n)); cbn [andb];
    try lia.
  - exists (Z.to_nat i). split; [reflexivity | lia].
  - destruct (Z.leb_spec (- Z.of_nat n) i); [| lia].
    destruct (Z.ltb_spec i 0); [| lia]. cbn [andb].
    exists (Z.to_nat (Z.of_nat n + i)). split; [reflexivity | lia].
Qed.

Lemma getitem_in_range {A : Type} (l : list A) (i : Z) :
  0 <= i < Z.of_nat (List.length l) -> exists v, getitem l i = Some v.
Proof.
  intros H. unfold getitem. rewrite position_in_range by exact H.
  destruct (nth_error l (Z.to_nat i)) as [v|] eqn:Hn; [exists v; reflexivity |].
  apply nth_error_None in Hn. lia.
Qed.

Lemma loc_genres_in_range (df : frame) (i : Z) :
  0 <= i < Z.of_nat (List.length df) -> exists g, loc_genres df i = inr g.
Proof.
  intros H. unfold loc_genres.
  destruct (Z.leb_spec 0 i); [| lia].
  destruct (Z.ltb_spec i (Z.of_nat (List.length df))); [| lia]. cbn [andb].
  destruct (nth_error df (Z.to_nat i)) as [m|] eqn:Hn; [eexists; reflexivity |].
  apply nth_error_None in Hn. lia.
Qed.

(** [iloc] succeeds on positions within the frame, counting from either
    end, and gives the rows in the order of the positions. *)
Lemma iloc_rows (df : frame) (ixs : list Z) :
  (forall i, In i ixs -> - Z.of_nat (List.length df) <= i < Z.of_nat (List.length df)) ->
  exists recs, iloc df ixs = inr recs
               /\ Forall2 (row_at df) ixs recs
               /\ Forall (fun r => added r = []) recs.
Proof.
  induction ixs as [|i ixs IH]; intros Hr.
  - exists []. repeat split; constructor.
  - destruct IH as [recs [He [Hf Ha]]]; [intros j Hj; apply Hr; right; exact Hj |].
    destruct (position_some (List.length df) i) as [p [Hp Hlt]];
      [apply Hr; left; reflexivity |].
    destruct (nth_error df p) as [m|] eqn:Hn; [| apply nth_error_None in Hn; lia].
    exists ({| label := Z.of_nat p; row := m; added := [] |} :: recs).
    cbn [iloc]. rewrite Hp, He, Hn. repeat split.
    + constructor; [| exact Hf]. exists p. cbn. repeat split; assumption.
    + constructor; [reflexivity | exact Ha].
Qed.

Lemma slice_to_In {A : Type} (l : list A) (n : Z) (x : A) :
  In x (Py.slice_to l n) -> In x l.
Proof. unfold Py.slice_to. destruct (0 <=? n); apply firstn_In. Qed.

(** What is in the window: rows listed by a search, other than the
    seeds. *)
Lemma window_In (order : set_order) (res1 res2 : list Q * list Z) (idx1 idx2 top_n i : Z) :
  In i (window order res1 res2 idx1 idx2 top_n) ->
  (In i (snd res1) \/ In i (snd res2)) /\ i <> idx1 /\ i <> idx2.
Proof.
  unfold window, without_seeds. intros H. apply slice_to_In in H.
  apply filter_In in H as [Hin Hne].
  apply sorted_reverse_In in Hin. apply union_list_In in Hin.
  apply negb_true_iff, orb_false_iff in Hne as [H1 H2].
  apply Z.eqb_neq in H1, H2. auto.
Qed.

Lemma read_embedding_ok (m : EmbeddingManager) (idx : Z) (v : Faiss.vector)
  (tr : list event) :
  getitem (embeddings m) idx = Some v ->
  read_embedding m idx tr = (inr v, tr ++ [GetEmbedding idx]).
Proof.
  intros H. unfold read_embedding, bind, emit. rewrite H. reflexivity.
Qed.

Lemma select_scored (seed_genres : list string) (recs : list labelled_row) :
  Forall (fun r => added r = []) recs ->
  select ["id"; "title"; "overview"; "vote_average"; "genres_str"; "genre_score"]%string
         (with_column "genre_score" (fun r => _genre_bonus r seed_genres) recs)
  = scored seed_genres recs.
Proof.
  intros H. unfold select, with_column, scored. rewrite map_map.
  apply map_ext_in. intros r Hr. rewrite Forall_forall in H.
  cbn [label row added]. rewrite (H r Hr). reflexivity.
Qed.

Lemma select_unscored (seed_genres : list string) (recs : list labelled_row) :
  Forall (fun r => added r = []) recs ->
  select ["id"; "title"; "overview"; "vote_average"; "genres_str"]%string
         (with_column "score" (fun r => _genre_bonus r seed_genres) recs)
  = unscored recs.
Proof.
  intros H. unfold select, with_column, unscored. rewrite map_map.
  apply map_ext_in. intros r Hr. rewrite Forall_forall in H.
  cbn [label row added]. rewrite (H r Hr). reflexivity.
Qed.

(** A well-formed system with both identifiers known: both functions
    return, after two reads of the matrix and two searches, the rows of
    the window in the order of the window. *)
Lemma recommend_runs (order : set_order) (self : MovieRecommender)
  (movie_id1 movie_id2 top_n idx1 idx2 : Z) (tr : list event) :
  well_formed self ->
  dict_get (self_id_to_index self) movie_id1 = Some idx1 ->
  dict_get (self_id_to_index self) movie_id2 = Some idx2 ->
  exists emb1 emb2 genres1 genres2 recs,
    getitem (embeddings (emb_manager self)) idx1 = Some emb1
    /\ getitem (embeddings (emb_manager self)) idx2 = Some emb2
    /\ loc_genres (movies_df self) idx1 = inr genres1
    /\ loc_genres (movies_df self) idx2 = inr genres2
    /\ Forall2 (row_at (movies_df self))
         (window order (search_similar (emb_manager self) emb1 40)
                       (search_similar (emb_manager self) emb2 40) idx1 idx2 top_n)
         recs
    /\ recommend order self movie_id1 movie_id2 top_n tr
       = (inr (scored (Py.str_set (Py.split (genres1 ++ " " ++ genres2)%string)) recs),
          tr ++ [GetEmbedding idx1; GetEmbedding idx2;
                 IndexSearch emb1 40; IndexSearch emb2 40])
    /\ recommend_movies order self movie_id1 movie_id2 top_n tr
       = (inr (inr (unscored recs)),
          tr ++ [GetEmbedding idx1; GetEmbedding idx2;
                 IndexSearch emb1 40; IndexSearch emb2 40]).
Proof.
  intros [Hix [Hlen Hdict]] H1 H2.
  pose proof (Hdict _ _ H1) as R1. pose proof (Hdict _ _ H2) as R2.
  destruct (getitem_in_range (embeddings (emb_manager self)) idx1) as [emb1 E1];
    [rewrite Hlen; exact R1 |].
  destruct (getitem_in_range (embeddings (emb_manager self)) idx2) as [emb2 E2];
    [rewrite Hlen; exact R2 |].
  destruct (loc_genres_in_range (movies_df self) idx1 R1) as [genres1 G1].
  destruct (loc_genres_in_range (movies_df self) idx2 R2) as [genres2 G2].
  destruct (iloc_rows (movies_df self)
              (window order (search_similar (emb_manager self) emb1 40)
                            (search_similar (emb_manager self) emb2 40) idx1 idx2 top_n))
    as [recs [Hiloc [Hrows Hadded]]].
  { intros i Hi. apply window_In in Hi as [Hi _].
    assert (Hl : i = -1 \/ 0 <= i < Z.of_nat (List.length (movies_df self))).
    { unfold search_similar in Hi. rewrite <- Hlen.
      replace (List.length (embeddings (emb_manager self)))
        with (Faiss.ntotal (index (emb_manager self)))
        by (rewrite Hix; reflexivity).
      destruct Hi as [Hi | Hi]; apply search_labels in Hi; exact Hi. }
    lia. }
  exists emb1, emb2, genres1, genres2, recs.
  repeat (split; [assumption |]).
  assert (Htr : forall a b c d : event,
             (((tr ++ [a]) ++ [b]) ++ [c]) ++ [d] = tr ++ [a; b; c; d]).
  { intros. rewrite <- !app_assoc. reflexivity. }
  split.
  - unfold recommend. rewrite H1, H2. unfold bind at 1.
    rewrite (read_embedding_ok _ _ _ _ E1). unfold bind at 1.
    rewrite (read_embedding_ok _ _ _ _ E2).
    unfold run_search, emit, lift, ret, _get_combined_genres, bind.
    cbv beta iota. rewrite Hiloc, G1, G2, Htr, select_scored by exact Hadded. reflexivity.
  - unfold recommend_movies. rewrite H1, H2. unfold bind at 1.
    rewrite (read_embedding_ok _ _ _ _ E1). unfold bind at 1.
    rewrite (read_embedding_ok _ _ _ _ E2).
    unfold run_search, emit, lift, ret, _get_combined_genres, bind.
    cbv beta iota. rewrite Hiloc, G1, G2, Htr, select_unscored by exact Hadded. reflexivity.
Qed.

(** ** Systems built by [initialize_system] are well formed *)

Lemma build_id_to_index_range (ps : list (Z * Z)) (d : dict) (k v : Z) :
  dict_get (fold_left (fun d p => dict_set d (snd p) (fst p)) ps d) k = Some v ->
  In v (map fst ps) \/ dict_get d k = Some v.
Proof.
  revert d. induction ps as [|[i mid] ps IH]; intros d H; cbn [fold_left] in H.
  - right. exact H.
  - apply IH in H as [H | H].
    + left. right. exact H.
    + cbn in H. destruct (mid =? k).
      * injection H as <-. left. left. reflexivity.
      * right. exact H.
Qed.

Lemma initialize_system_well_formed (movies : frame) (embs : list Faiss.vector) :
  List.length embs = List.length movies -> well_formed (initialize_system movies embs).
Proof.
  intros Hlen. unfold well_formed, initialize_system, build_embeddings, self_id_to_index.
  cbn [emb_manager movies_df index embeddings id_to_index].
  split; [reflexivity | split; [exact Hlen |]].
  intros k v H. unfold build_id_to_index in H.
  apply build_id_to_index_range in H as [H | H]; [| discriminate].
  unfold enumerate in H. rewrite length_map in H.
  apply in_map_iff in H as [[i m] [Hv H]]. cbn in Hv. subst i.
  apply in_combine_l in H. apply in_map_iff in H as [n [<- Hn]].
  apply in_seq in Hn. lia.
Qed.

Lemma toy_well_formed : well_formed toy.
Proof. apply initialize_system_well_formed. reflexivity. Qed.

Lemma arc_well_formed : well_formed arc.
Proof.
  apply initialize_system_well_formed. rewrite !length_map. reflexivity.
Qed.

(* ================================================================== *)
(** * Unknown identifiers                                              *)
(* ================================================================== *)

(** C5, as the code has it: with an identifier that is not in the mapping,
    [MovieRecommender.recommend] raises ValueError and the script's
    [recommend_movies] returns the message "Movie ID not found" as an
    ordinary value; in both, no embedding has been read and no search made
    (the trace is as it was). *)
Theorem unknown_id_no_vector_work (order : set_order) (self : MovieRecommender)
  (movie_id1 movie_id2 top_n : Z) (tr : list event) :
  dict_in movie_id1 (self_id_to_index self) = false
  \/ dict_in movie_id2 (self_id_to_index self) = false ->
  recommend order self movie_id1 movie_id2 top_n tr
  = (inl (Py.ValueError "One or both movie IDs not found"), tr)
  /\ recommend_movies order self movie_id1 movie_id2 top_n tr
     = (inr (inl "Movie ID not found"%string), tr).
Proof.
  unfold dict_in, recommend, recommend_movies. intros H.
  destruct (dict_get (self_id_to_index self) movie_id1);
    destruct (dict_get (self_id_to_index self) movie_id2);
    destruct H as [H | H]; try discriminate; split; reflexivity.
Qed.

Lemma unknown_id_no_vector_work_toy :
  (dict_in 999999999 (self_id_to_index toy) = false
   \/ dict_in 102 (self_id_to_index toy) = false)
  /\ recommend cpython toy 999999999 102 6 []
     = (inl (Py.ValueError "One or both movie IDs not found"), [])
  /\ recommend_movies cpython toy 999999999 102 6 []
     = (inr (inl "Movie ID not found"%string), []).
Proof.
  assert (H : dict_in 999999999 (self_id_to_index toy) = false
              \/ dict_in 102 (self_id_to_index toy) = false)
    by (left; reflexivity).
  split; [exact H |].
  exact (unknown_id_no_vector_work cpython toy 999999999 102 6 [] H).
Defined.

(** C5, counterexample: the script's function does not fail on an unknown
    identifier; it returns. *)
Lemma recommend_movies_unknown_id_returns_toy :
  ~ exists e : Py.exn, fst (recommend_movies cpython toy 999999999 102 6 []) = inl e.
Proof. intros [e H]. vm_compute in H. discriminate. Qed.

(* ================================================================== *)
(** * The window and the genre score                                   *)
(* ================================================================== *)

Lemma Forall2_row_at_scored (df : frame) (seed_genres : list string)
  (w : list Z) (recs : list labelled_row) :
  Forall2 (row_at df) w recs -> Forall2 (row_at df) w (scored seed_genres recs).
Proof. induction 1; cbn; constructor; assumption. Qed.

Lemma Forall2_row_at_unscored (df : frame) (w : list Z) (recs : list labelled_row) :
  Forall2 (row_at df) w recs -> Forall2 (row_at df) w (unscored recs).
Proof. induction 1; cbn; constructor; assumption. Qed.

(** C9, as the code has it: the returned entries are, one for one and in
    the same order, the first [top_n] entries of the ranking without the
    seeds, each shown as the row at that position of the movie table;
    nothing is reordered or replaced after the cut.
    [MovieRecommender.recommend] attaches the genre score of each row as
    its column [genre_score]; the script's [recommend_movies] computes the
    same score but returns the entries without it. *)
Theorem recommend_keeps_window (order : set_order) (self : MovieRecommender)
  (movie_id1 movie_id2 top_n idx1 idx2 : Z) (tr : list event) :
  well_formed self ->
  0 < top_n ->
  dict_get (self_id_to_index self) movie_id1 = Some idx1 ->
  dict_get (self_id_to_index self) movie_id2 = Some idx2 ->
  exists emb1 emb2 seed_genres recs recs',
    getitem (embeddings (emb_manager self)) idx1 = Some emb1
    /\ getitem (embeddings (emb_manager self)) idx2 = Some emb2
    /\ _get_combined_genres self idx1 idx2 = inr seed_genres
    /\ fst (recommend order self movie_id1 movie_id2 top_n tr) = inr recs
    /\ fst (recommend_movies order self movie_id1 movie_id2 top_n tr) = inr (inr recs')
    /\ Forall2 (row_at (movies_df self))
         (firstn (Z.to_nat top_n)
            (without_seeds idx1 idx2
               (ranked order (search_similar (emb_manager self) emb1 40)
                             (search_similar (emb_manager self) emb2 40))))
         recs
    /\ Forall (fun r => added r
                        = [("genre_score"%string, _genre_bonus (row r) seed_genres)]) recs
    /\ Forall2 (row_at (movies_df self))
         (firstn (Z.to_nat top_n)
            (without_seeds idx1 idx2
               (ranked order (search_similar (emb_manager self) emb1 40)
                             (search_similar (emb_manager self) emb2 40))))
         recs'
    /\ Forall (fun r => added r = []) recs'.
Proof.
  intros Hwf Hn H1 H2.
  destruct (recommend_runs order self movie_id1 movie_id2 top_n idx1 idx2 tr Hwf H1 H2)
    as [emb1 [emb2 [g1 [g2 [recs [E1 [E2 [G1 [G2 [Hrows [Hrec Hmov]]]]]]]]]]].
  unfold window, Py.slice_to in Hrows.
  destruct (Z.leb_spec 0 top_n); [| lia].
  exists emb1, emb2, (Py.str_set (Py.split (g1 ++ " " ++ g2)%string)),
    (scored (Py.str_set (Py.split (g1 ++ " " ++ g2)%string)) recs), (unscored recs).
  repeat split; try assumption.
  - unfold _get_combined_genres. rewrite G1, G2. reflexivity.
  - rewrite Hrec. reflexivity.
  - rewrite Hmov. reflexivity.
  - apply Forall2_row_at_scored, Hrows.
  - unfold scored. apply Forall_forall. intros r Hr.
    apply in_map_iff in Hr as [r0 [<- _]]. reflexivity.
  - apply Forall2_row_at_unscored, Hrows.
  - unfold unscored. apply Forall_forall. intros r Hr.
    apply in_map_iff in Hr as [r0 [<- _]]. reflexivity.
Qed.

Lemma recommend_keeps_window_toy :
  well_formed toy
  /\ 0 < 1
  /\ dict_get (self_id_to_index toy) 101 = Some 0
  /\ dict_get (self_id_to_index toy) 102 = Some 1
  /\ exists emb1 emb2 seed_genres recs recs',
       getitem (embeddings (emb_manager toy)) 0 = Some emb1
       /\ getitem (embeddings (emb_manager toy)) 1 = Some emb2
       /\ _get_combined_genres toy 0 1 = inr seed_genres
       /\ fst (recommend cpython toy 101 102 1 []) = inr recs
       /\ fst (recommend_movies cpython toy 101 102 1 []) = inr (inr recs')
       /\ Forall2 (row_at (movies_df toy))
            (firstn (Z.to_nat 1)
               (without_seeds 0 1
                  (ranked cpython (search_similar (emb_manager toy) emb1 40)
                                  (search_similar (emb_manager toy) emb2 40))))
            recs
       /\ Forall (fun r => added r
                           = [("genre_score"%string, _genre_bonus (row r) seed_genres)]) recs
       /\ Forall2 (row_at (movies_df toy))
            (firstn (Z.to_nat 1)
               (without_seeds 0 1
                  (ranked cpython (search_similar (emb_manager toy) emb1 40)
                                  (search_similar (emb_manager toy) emb2 40))))
            recs'
       /\ Forall (fun r => added r = []) recs'.
Proof.
  split; [exact toy_well_formed |].
  split; [lia |].
  split; [reflexivity |].
  split; [reflexivity |].
  exact (recommend_keeps_window cpython toy 101 102 1 0 1 []
           toy_well_formed eq_refl eq_refl eq_refl).
Defined.

(** C9, counterexample: in the frame that [recommend_movies] returns, the
    entries have no genre score. *)
Lemma recommend_movies_drops_score_toy :
  ~ forall recs,
      fst (recommend_movies cpython toy 101 102 3 []) = inr (inr recs) ->
      Forall (fun r => exists g, column "genre_score" (added r) = Some g
                                 \/ column "score" (added r) = Some g) recs.
Proof.
  intros H.
  assert (E : fst (recommend_movies cpython toy 101 102 3 [])
              = inr (inr (unscored [ {| label := 2; row := nth 2 toy_movies (arc_movie 0);
                                        added := [] |};
                                     {| label := 2; row := nth 2 toy_movies (arc_movie 0);
                                        added := [] |} ])))
    by (vm_compute; reflexivity).
  specialize (H _ E).
  inversion H as [|r recs [g [Hg | Hg]] _]; discriminate.
Qed.

(** The two frames of that call: the same rows, with and without the
    score.  (The second row is the last row of the table, standing for
    the unfilled slot [-1].) *)
Example recommend_toy_101_102 :
  fst (recommend cpython toy 101 102 3 [])
  = inr [ {| label := 2; row := nth 2 toy_movies (arc_movie 0);
             added := [("genre_score"%string, (0 / (2 + epsilon))%Q)] |};
          {| label := 2; row := nth 2 toy_movies (arc_movie 0);
             added := [("genre_score"%string, (0 / (2 + epsilon))%Q)] |} ]
  /\ fst (recommend_movies cpython toy 101 102 3 [])
     = inr (inr [ {| label := 2; row := nth 2 toy_movies (arc_movie 0); added := [] |};
                  {| label := 2; row := nth 2 toy_movies (arc_movie 0); added := [] |} ]).
Proof. split; vm_compute; reflexivity. Qed.

(* ================================================================== *)
(** * Unfilled slots reach the movie table                             *)
(* ================================================================== *)

(** With fewer than 40 vectors in the index, both result lists end in
    unfilled slots.  Their label [-1] is a candidate like any other, it is
    not a seed, it ranks last, and [iloc] reads position [-1] as the last
    row of the table. *)

(** C3 at a catalogue of three movies, seeds 101 (row 0) and 103 (row 2),
    six recommendations asked: the second entry returned is row 2, the
    seed 103 itself.  The script's function returns the same rows. *)
Theorem recommend_returns_seed_toy :
  dict_get (self_id_to_index toy) 101 = Some 0
  /\ dict_get (self_id_to_index toy) 103 = Some 2
  /\ window cpython (search_similar (emb_manager toy) [1; 0]%Q 40)
                    (search_similar (emb_manager toy) [0; 1]%Q 40) 0 2 6 = [1; -1]
  /\ exists recs recs',
       fst (recommend cpython toy 101 103 6 []) = inr recs
       /\ labels recs = [1; 2] /\ ids recs = [102; 103]
       /\ fst (recommend_movies cpython toy 101 103 6 []) = inr (inr recs')
       /\ labels recs' = [1; 2] /\ ids recs' = [102; 103].
Proof.
  split; [reflexivity |]. split; [reflexivity |].
  split; [vm_compute; reflexivity |].
  eexists. eexists.
  split; [vm_compute; reflexivity |].
  split; [reflexivity |]. split; [reflexivity |].
  split; [vm_compute; reflexivity |].
  split; reflexivity.
Qed.

(** C6 at the same catalogue, seeds 101 and 102: the only eligible row is
    row 2, yet two entries are returned, row 2 and row 2 again. *)
Theorem recommend_pads_shortfall_toy :
  without_seeds 0 1 [0; 1; 2] = [2]
  /\ window cpython (search_similar (emb_manager toy) [1; 0]%Q 40)
                    (search_similar (emb_manager toy) [3 # 5; 4 # 5]%Q 40) 0 1 6 = [2; -1]
  /\ exists recs,
       fst (recommend cpython toy 101 102 6 []) = inr recs
       /\ labels recs = [2; 2] /\ ids recs = [103; 103].
Proof.
  split; [reflexivity |].
  split; [vm_compute; reflexivity |].
  eexists.
  split; [vm_compute; reflexivity |].
  split; reflexivity.
Qed.

(** C10 at the same catalogue, seed 103 (row 2) given twice: the call
    succeeds, the neighbours come first in the order of their similarity
    to the seed (rows 1 and 0), and then the seed's own row is returned. *)
Theorem recommend_same_seed_returns_seed_toy :
  dict_get (self_id_to_index toy) 103 = Some 2
  /\ search_similar (emb_manager toy) [0; 1]%Q 40
     = ([1; 20 # 25; 0]%Q ++ repeat Faiss.neutral 37, [2; 1; 0] ++ repeat (-1) 37)
  /\ exists recs,
       fst (recommend cpython toy 103 103 3 []) = inr recs
       /\ labels recs = [1; 0; 2] /\ ids recs = [102; 101; 103].
Proof.
  split; [reflexivity |].
  split; [vm_compute; reflexivity |].
  eexists.
  split; [vm_compute; reflexivity |].
  split; reflexivity.
Qed.

(** ** With at least 40 vectors there is no unfilled slot *)

Lemma search_labels_full (ix : Faiss.IndexFlatIP) (q : Faiss.vector) (k : nat) (i : Z) :
  (k <= Faiss.ntotal ix)%nat ->
  In i (snd (Faiss.search ix q k)) -> 0 <= i < Z.of_nat (Faiss.ntotal ix).
Proof.
  intros Hk. unfold Faiss.search. cbn [snd].
  rewrite best_length, Nat.min_l by exact Hk. rewrite Nat.sub_diag. cbn [repeat].
  rewrite app_nil_r. intros Hin.
  apply in_map_iff in Hin as [[l s] [Heq Hin]]. cbn in Heq. subst.
  apply best_incl, labelled_In in Hin as [r [Hl [Hr _]]]. lia.
Qed.

Lemma Forall2_row_at_labels (df : frame) (w : list Z) (recs : list labelled_row) :
  Forall2 (row_at df) w recs ->
  (forall i, In i w -> 0 <= i) ->
  labels recs = w.
Proof.
  induction 1 as [|i r w recs [p [Hp [Hl _]]] _ IH]; intros Hpos; cbn.
  - reflexivity.
  - f_equal.
    + assert (0 <= i) by (apply Hpos; left; reflexivity).
      unfold position in Hp. destruct (Z.leb_spec 0 i); [| lia].
      destruct (i <? Z.of_nat (List.length df)); cbn [andb] in Hp.
      * injection Hp as <-. lia.
      * destruct (Z.ltb_spec i 0); [lia |].
        rewrite andb_false_r in Hp. discriminate.
    + apply IH. intros j Hj. apply Hpos. right. exact Hj.
Qed.

(** X11: a well-formed system over at least 40 movies: the labels returned
    are exactly the first [top_n] entries of the ranking without the seeds,
    every label is a row listed by one of the two searches, and no label
    is the row of a seed. *)
Lemma recommend_full_index (order : set_order) (self : MovieRecommender)
  (movie_id1 movie_id2 top_n idx1 idx2 : Z) (tr : list event) :
  well_formed self ->
  (40 <= List.length (movies_df self))%nat ->
  0 < top_n ->
  dict_get (self_id_to_index self) movie_id1 = Some idx1 ->
  dict_get (self_id_to_index self) movie_id2 = Some idx2 ->
  exists emb1 emb2 recs,
    getitem (embeddings (emb_manager self)) idx1 = Some emb1
    /\ getitem (embeddings (emb_manager self)) idx2 = Some emb2
    /\ fst (recommend order self movie_id1 movie_id2 top_n tr) = inr recs
    /\ labels recs
       = firstn (Z.to_nat top_n)
           (without_seeds idx1 idx2
              (ranked order (search_similar (emb_manager self) emb1 40)
                            (search_similar (emb_manager self) emb2 40)))
    /\ forall l, In l (labels recs) ->
         l <> idx1 /\ l <> idx2
         /\ (In l (snd (search_similar (emb_manager self) emb1 40))
             \/ In l (snd (search_similar (emb_manager self) emb2 40))).
Proof.
  intros Hwf Hbig Hn H1 H2.
  destruct (recommend_runs order self movie_id1 movie_id2 top_n idx1 idx2 tr Hwf H1 H2)
    as [emb1 [emb2 [g1 [g2 [recs [E1 [E2 [_ [_ [Hrows [Hrec _]]]]]]]]]]].
  destruct Hwf as [Hix [Hlen _]].
  exists emb1, emb2, (scored (Py.str_set (Py.split (g1 ++ " " ++ g2)%string)) recs).
  assert (Hlab : labels (scored (Py.str_set (Py.split (g1 ++ " " ++ g2)%string)) recs)
                 = window order (search_similar (emb_manager self) emb1 40)
                     (search_similar (emb_manager self) emb2 40) idx1 idx2 top_n).
  { apply (Forall2_row_at_labels (movies_df self)).
    - apply Forall2_row_at_scored, Hrows.
    - intros i Hi. apply window_In in Hi as [Hi _].
      assert (Hk : (40 <= Faiss.ntotal (index (emb_manager self)))%nat).
      { rewrite Hix. unfold Faiss.ntotal. rewrite build_index_xb, Hlen. exact Hbig. }
      unfold search_similar in Hi.
      destruct Hi as [Hi | Hi]; apply (search_labels_full _ _ _ _ Hk) in Hi; lia. }
  split; [exact E1 |]. split; [exact E2 |].
  split; [rewrite Hrec; reflexivity |].
  split.
  - rewrite Hlab. unfold window, Py.slice_to.
    destruct (Z.leb_spec 0 top_n); [reflexivity | lia].
  - intros l Hl. rewrite Hlab in Hl. apply window_In in Hl. tauto.
Qed.

(* ================================================================== *)
(** * The genre score                                                  *)
(* ================================================================== *)

Lemma split_aux_space (s1 s2 cur : string) :
  Py.split_aux (s1 ++ String " " s2)%string cur
  = Py.split_aux s1 cur ++ Py.split s2.
Proof.
  revert cur. induction s1 as [|c s1 IH]; intros cur.
  - cbn [String.append Py.split_aux]. change (Py.is_space " ") with true.
    cbv iota. destruct cur; reflexivity.
  - cbn [String.append Py.split_aux]. destruct (Py.is_space c).
    + destruct cur; rewrite IH; reflexivity.
    + apply IH.
Qed.

(** Splitting the two seed strings joined by a space gives the tokens of
    the first followed by the tokens of the second. *)
Lemma split_joined (genres1 genres2 : string) :
  Py.split (genres1 ++ " " ++ genres2)%string = seed_genre_set genres1 genres2.
Proof. unfold Py.split, seed_genre_set. apply split_aux_space. Qed.

Lemma str_mem_In (s : string) (l : list string) : Py.str_mem s l = true <-> In s l.
Proof.
  unfold Py.str_mem. rewrite existsb_exists. split.
  - intros [x [Hin Heq]]. apply String.eqb_eq in Heq. subst. exact Hin.
  - intros Hin. exists s. split; [exact Hin | apply String.eqb_refl].
Qed.

Lemma str_mem_nodup (s : string) (l : list string) :
  Py.str_mem s (nodup string_dec l) = if in_dec string_dec s l then true else false.
Proof.
  destruct (in_dec string_dec s l) as [Hin | Hin].
  - apply str_mem_In, nodup_In, Hin.
  - destruct (Py.str_mem s (nodup string_dec l)) eqn:E; [| reflexivity].
    apply str_mem_In, nodup_In in E. contradiction.
Qed.

Lemma filter_nodup (f : string -> bool) (l : list string) :
  filter f (nodup string_dec l) = nodup string_dec (filter f l).
Proof.
  induction l as [|x l IH]; [reflexivity |].
  cbn [nodup filter].
  destruct (in_dec string_dec x l) as [Hin | Hin]; destruct (f x) eqn:Hf.
  - cbn [nodup]. destruct (in_dec string_dec x (filter f l)) as [_ | Hn]; [exact IH |].
    exfalso. apply Hn, filter_In. auto.
  - exact IH.
  - cbn [filter nodup]. rewrite Hf.
    destruct (in_dec string_dec x (filter f l)) as [Hy | _].
    + apply filter_In in Hy as [Hy _]. contradiction.
    + f_equal. exact IH.
  - cbn [filter]. rewrite Hf. exact IH.
Qed.

(** What [_genre_bonus] computes from the joined seed strings is the ratio
    of the specification. *)
Lemma genre_bonus_ratio (r : movie) (genres1 genres2 : string) :
  _genre_bonus r (Py.str_set (Py.split (genres1 ++ " " ++ genres2)%string))
  = genre_overlap_ratio (genres_str r) genres1 genres2.
Proof.
  unfold _genre_bonus, genre_overlap_ratio, Py.inter_len, Py.str_set, card, common.
  rewrite split_joined, filter_nodup.
  rewrite (filter_ext _ _ (fun s => str_mem_nodup s (seed_genre_set genres1 genres2))).
  reflexivity.
Qed.

Lemma card_common_le (a b : list string) : (card (common a b) <= card b)%nat.
Proof.
  unfold card, common. apply NoDup_incl_length; [apply NoDup_nodup |].
  intros s Hs. apply nodup_In in Hs. apply filter_In in Hs as [_ Hs].
  apply nodup_In. destruct (in_dec string_dec s b); [assumption | discriminate].
Qed.

Lemma epsilon_pos : (0 < epsilon)%Q.
Proof. reflexivity. Qed.

(** The ratio never leaves [0, 1]: the overlap is at most the number of
    seed tokens, and the denominator exceeds that number. *)
Lemma genre_overlap_ratio_bounds (genres genres1 genres2 : string) :
  (0 <= genre_overlap_ratio genres genres1 genres2 <= 1)%Q.
Proof.
  unfold genre_overlap_ratio.
  pose proof (card_common_le (Py.split genres) (seed_genre_set genres1 genres2)) as Hle.
  set (a := card (common (Py.split genres) (seed_genre_set genres1 genres2))) in *.
  set (b := card (seed_genre_set genres1 genres2)) in *.
  assert (Ha : (0 <= inject_Z (Z.of_nat a))%Q).
  { change 0%Q with (inject_Z 0). rewrite <- Zle_Qle. lia. }
  assert (Hab : (inject_Z (Z.of_nat a) <= inject_Z (Z.of_nat b))%Q).
  { rewrite <- Zle_Qle. lia. }
  assert (Hb : (0 < inject_Z (Z.of_nat b) + epsilon)%Q).
  { apply Qle_lt_trans with (inject_Z (Z.of_nat b) + 0)%Q.
    - rewrite Qplus_0_r. apply Qle_trans with (inject_Z (Z.of_nat a)); assumption.
    - apply Qplus_lt_r, epsilon_pos. }
  split.
  - apply Qle_shift_div_l; [exact Hb |]. rewrite Qmult_0_l. exact Ha.
  - apply Qle_shift_div_r; [exact Hb |]. rewrite Qmult_1_l.
    apply Qle_trans with (inject_Z (Z.of_nat b)); [exact Hab |].
    rewrite <- (Qplus_0_r (inject_Z (Z.of_nat b))) at 1.
    apply Qplus_le_r. apply Qlt_le_weak, epsilon_pos.
Qed.

Lemma iloc_added (df : frame) (ixs : list Z) (recs : list labelled_row) :
  iloc df ixs = inr recs -> Forall (fun r => added r = []) recs.
Proof.
  revert recs. induction ixs as [|i ixs IH]; intros recs H; cbn [iloc] in H.
  - injection H as <-. constructor.
  - destruct (position (List.length df) i) as [p|]; [| discriminate].
    destruct (iloc df ixs) as [e | rows]; [discriminate |].
    destruct (nth_error df p) as [m|]; [| discriminate].
    injection H as <-. constructor; [reflexivity | apply IH; reflexivity].
Qed.

(** Whenever [recommend] returns, it has read the genres of both seeds and
    every entry carries the bonus computed from them. *)
Lemma recommend_returns (order : set_order) (self : MovieRecommender)
  (movie_id1 movie_id2 top_n : Z) (tr : list event) (recs : list labelled_row) :
  fst (recommend order self movie_id1 movie_id2 top_n tr) = inr recs ->
  exists idx1 idx2 genres1 genres2 rows,
    dict_get (self_id_to_index self) movie_id1 = Some idx1
    /\ dict_get (self_id_to_index self) movie_id2 = Some idx2
    /\ loc_genres (movies_df self) idx1 = inr genres1
    /\ loc_genres (movies_df self) idx2 = inr genres2
    /\ recs = scored (Py.str_set (Py.split (genres1 ++ " " ++ genres2)%string)) rows.
Proof.
  unfold recommend. intros H.
  destruct (dict_get (self_id_to_index self) movie_id1) as [idx1|]; [| discriminate].
  destruct (dict_get (self_id_to_index self) movie_id2) as [idx2|]; [| discriminate].
  unfold read_embedding, run_search, emit, lift, ret, raise, _get_combined_genres, bind in H.
  cbv beta iota in H.
  destruct (getitem (embeddings (emb_manager self)) idx1) as [emb1|]; [| discriminate].
  cbv beta iota in H.
  destruct (getitem (embeddings (emb_manager self)) idx2) as [emb2|]; [| discriminate].
  cbv beta iota in H.
  destruct (iloc (movies_df self) _) as [e | rows] eqn:Hiloc; [discriminate |].
  destruct (loc_genres (movies_df self) idx1) as [e | genres1] eqn:G1; [discriminate |].
  destruct (loc_genres (movies_df self) idx2) as [e | genres2] eqn:G2; [discriminate |].
  cbn [fst] in H. injection H as <-.
  exists idx1, idx2, genres1, genres2, rows.
  repeat (split; [first [reflexivity | assumption] |]).
  apply select_scored. apply iloc_added in Hiloc. exact Hiloc.
Qed.

(** C8: every entry that [recommend] returns carries, as [genre_score],
    the number of distinct genre tokens the movie shares with the seeds
    over the number of distinct seed tokens plus [1e-9], the seed tokens
    being those of the first seed's genre string together with those of
    the second's; and when there is a seed token this score lies between
    0 and 1. *)
Theorem genre_score_ratio (order : set_order) (self : MovieRecommender)
  (movie_id1 movie_id2 top_n : Z) (tr : list event) (recs : list labelled_row) :
  fst (recommend order self movie_id1 movie_id2 top_n tr) = inr recs ->
  exists idx1 idx2 genres1 genres2,
    dict_get (self_id_to_index self) movie_id1 = Some idx1
    /\ dict_get (self_id_to_index self) movie_id2 = Some idx2
    /\ loc_genres (movies_df self) idx1 = inr genres1
    /\ loc_genres (movies_df self) idx2 = inr genres2
    /\ forall r, In r recs ->
         column "genre_score" (added r)
         = Some (genre_overlap_ratio (genres_str (row r)) genres1 genres2)
         /\ (seed_genre_set genres1 genres2 <> [] ->
             0 <= genre_overlap_ratio (genres_str (row r)) genres1 genres2 <= 1)%Q.
Proof.
  intros H.
  apply recommend_returns in H as [idx1 [idx2 [g1 [g2 [rows [H1 [H2 [G1 [G2 ->]]]]]]]]].
  exists idx1, idx2, g1, g2. repeat (split; [assumption |]).
  intros r Hr. unfold scored in Hr. apply in_map_iff in Hr as [r0 [<- _]].
  cbn [added row column]. change (String.eqb "genre_score" "genre_score") with true.
  cbv iota. rewrite genre_bonus_ratio. split; [reflexivity |].
  intros _. apply genre_overlap_ratio_bounds.
Qed.

Lemma genre_score_ratio_toy :
  fst (recommend cpython toy 101 103 1 [])
  = inr [ {| label := 1; row := nth 1 toy_movies (arc_movie 0);
             added := [("genre_score"%string, (1 / (4 + epsilon))%Q)] |} ]
  /\ exists idx1 idx2 genres1 genres2,
       dict_get (self_id_to_index toy) 101 = Some idx1
       /\ dict_get (self_id_to_index toy) 103 = Some idx2
       /\ loc_genres (movies_df toy) idx1 = inr genres1
       /\ loc_genres (movies_df toy) idx2 = inr genres2
       /\ forall r,
            In r [ {| label := 1; row := nth 1 toy_movies (arc_movie 0);
                      added := [("genre_score"%string, (1 / (4 + epsilon))%Q)] |} ] ->
            column "genre_score" (added r)
            = Some (genre_overlap_ratio (genres_str (row r)) genres1 genres2)
            /\ (seed_genre_set genres1 genres2 <> [] ->
                0 <= genre_overlap_ratio (genres_str (row r)) genres1 genres2 <= 1)%Q.
Proof.
  assert (H : fst (recommend cpython toy 101 103 1 [])
              = inr [ {| label := 1; row := nth 1 toy_movies (arc_movie 0);
                         added := [("genre_score"%string, (1 / (4 + epsilon))%Q)] |} ])
    by (vm_compute; reflexivity).
  split; [exact H |].
  exact (genre_score_ratio cpython toy 101 103 1 [] _ H).
Defined.

(** The seed tokens and the score of that example: "Drama" is one of the
    four tokens of "Action Drama" and "Science Fiction". *)
Example genre_overlap_ratio_toy :
  seed_genre_set "Action Drama" "Science Fiction"
  = ["Action"; "Drama"; "Science"; "Fiction"]%string
  /\ (genre_overlap_ratio "Drama" "Action Drama" "Science Fiction"
      == 1000000000 # 4000000001)%Q.
Proof. split; reflexivity. Qed.

(* ================================================================== *)
(** * Exchanging the two seeds                                         *)
(* ================================================================== *)

Lemma blended_score_comm (res1 res2 : list Q * list Z) (i : Z) :
  (blended_score res1 res2 i == blended_score res2 res1 i)%Q.
Proof. unfold blended_score. rewrite !py_min_Qmin. apply Q.min_comm. Qed.

Lemma StronglySorted_filter {A : Type} (R : A -> A -> Prop) (f : A -> bool) (l : list A) :
  StronglySorted R l -> StronglySorted R (filter f l).
Proof.
  induction 1 as [|x l Hs IH Hall]; cbn [filter].
  - constructor.
  - destruct (f x); [| exact IH]. constructor; [exact IH |].
    rewrite Forall_forall in *. intros y Hy. apply filter_In in Hy as [Hy _].
    apply Hall, Hy.
Qed.

Lemma StronglySorted_key_ext {A : Type} (key key' : A -> Q) (l : list A) :
  (forall x, key x == key' x)%Q ->
  StronglySorted (key_ge key) l -> StronglySorted (key_ge key') l.
Proof.
  intros Hk. induction 1 as [|x l Hs IH Hall]; constructor; [exact IH |].
  rewrite Forall_forall in *. intros y Hy. unfold key_ge in *.
  rewrite <- !Hk. apply Hall, Hy.
Qed.

(** Two descending arrangements of the same elements are the same list
    when no two elements have equal keys. *)
Lemma sorted_unique {A : Type} (key : A -> Q) (l1 l2 : list A) :
  StronglySorted (key_ge key) l1 ->
  StronglySorted (key_ge key) l2 ->
  Permutation l1 l2 ->
  (forall x y, In x l1 -> In y l1 -> (key x == key y)%Q -> x = y) ->
  l1 = l2.
Proof.
  revert l2. induction l1 as [|x l1 IH]; intros l2 S1 S2 P Hinj.
  - apply Permutation_nil in P. symmetry. exact P.
  - destruct l2 as [|y l2]; [apply Permutation_sym, Permutation_nil in P; discriminate |].
    inversion S1 as [|? ? S1' A1]; subst. inversion S2 as [|? ? S2' A2]; subst.
    rewrite Forall_forall in A1, A2.
    assert (Hxy : x = y).
    { assert (Hx : In x (y :: l2)) by (apply (Permutation_in _ P); left; reflexivity).
      assert (Hy : In y (x :: l1))
        by (apply (Permutation_in _ (Permutation_sym P)); left; reflexivity).
      destruct Hx as [Hx | Hx]; [symmetry; exact Hx |].
      destruct Hy as [Hy | Hy]; [exact Hy |].
      apply Hinj; [left; reflexivity | right; exact Hy |].
      apply Qle_antisym; [apply A2, Hx | apply A1, Hy]. }
    subst y. f_equal. apply IH; try assumption.
    + apply Permutation_cons_inv in P. exact P.
    + intros a b Ha Hb. apply Hinj; right; assumption.
Qed.

Lemma without_seeds_swap (idx1 idx2 : Z) (l : list Z) :
  without_seeds idx2 idx1 l = without_seeds idx1 idx2 l.
Proof.
  unfold without_seeds. apply filter_ext. intros i. rewrite orb_comm. reflexivity.
Qed.

Lemma combined_exchange (order : set_order) (res1 res2 : list Q * list Z) (i : Z) :
  In i (combined order res1 res2) <-> In i (combined order res2 res1).
Proof. unfold combined. rewrite !union_list_In. tauto. Qed.

Lemma without_seeds_ranked_NoDup (order : set_order) (res1 res2 : list Q * list Z)
  (idx1 idx2 : Z) :
  NoDup (without_seeds idx1 idx2 (ranked order res1 res2)).
Proof.
  apply NoDup_filter.
  apply (Permutation_NoDup (Permutation_sym (sorted_reverse_perm _ _))).
  apply union_list_NoDup.
Qed.

Lemma without_seeds_ranked_In (order : set_order) (res1 res2 : list Q * list Z)
  (idx1 idx2 i : Z) :
  In i (without_seeds idx1 idx2 (ranked order res1 res2))
  <-> In i (without_seeds idx1 idx2 (combined order res1 res2)).
Proof.
  unfold without_seeds, ranked. rewrite !filter_In, sorted_reverse_In. reflexivity.
Qed.

Lemma ranked_exchange_perm (order : set_order) (res1 res2 : list Q * list Z)
  (idx1 idx2 : Z) :
  Permutation (without_seeds idx1 idx2 (ranked order res1 res2))
              (without_seeds idx2 idx1 (ranked order res2 res1)).
Proof.
  apply NoDup_Permutation; try apply without_seeds_ranked_NoDup.
  intros i. rewrite (without_seeds_swap idx1 idx2), !without_seeds_ranked_In.
  unfold without_seeds. rewrite !filter_In, combined_exchange. reflexivity.
Qed.

Lemma ranked_exchange_sorted (order : set_order) (res1 res2 : list Q * list Z)
  (idx1 idx2 : Z) :
  StronglySorted (key_ge (blended_score res1 res2))
                 (without_seeds idx2 idx1 (ranked order res2 res1)).
Proof.
  apply StronglySorted_filter.
  apply (StronglySorted_key_ext (blended_score res2 res1)).
  - intros i. apply blended_score_comm.
  - apply sorted_reverse_sorted.
Qed.

Lemma ranked_exchange_eq (order : set_order) (res1 res2 : list Q * list Z)
  (idx1 idx2 : Z) :
  (forall i j,
      In i (without_seeds idx1 idx2 (combined order res1 res2)) ->
      In j (without_seeds idx1 idx2 (combined order res1 res2)) ->
      (blended_score res1 res2 i == blended_score res1 res2 j)%Q -> i = j) ->
  without_seeds idx1 idx2 (ranked order res1 res2)
  = without_seeds idx2 idx1 (ranked order res2 res1).
Proof.
  intros Hinj. apply (sorted_unique (blended_score res1 res2)).
  - apply StronglySorted_filter, sorted_reverse_sorted.
  - apply ranked_exchange_sorted.
  - apply ranked_exchange_perm.
  - intros i j Hi Hj. apply Hinj; apply without_seeds_ranked_In; assumption.
Qed.

(** C7, as the code has it: exchanging the two seeds leaves the candidate
    set and every blended score unchanged, and the two rankings without the
    seeds are both in descending order of that score and are arrangements
    of the same rows; they are the same list when no two of these rows have
    equal blended scores.  (Rows of equal score keep the order of the set
    union, which depends on which seed comes first.) *)
Theorem ranking_symmetric_up_to_ties (order : set_order) (res1 res2 : list Q * list Z)
  (idx1 idx2 : Z) :
  (forall i, In i (combined order res1 res2) <-> In i (combined order res2 res1))
  /\ (forall i, blended_score res1 res2 i == blended_score res2 res1 i)%Q
  /\ Permutation (without_seeds idx1 idx2 (ranked order res1 res2))
                 (without_seeds idx2 idx1 (ranked order res2 res1))
  /\ StronglySorted (key_ge (blended_score res1 res2))
                    (without_seeds idx1 idx2 (ranked order res1 res2))
  /\ StronglySorted (key_ge (blended_score res1 res2))
                    (without_seeds idx2 idx1 (ranked order res2 res1))
  /\ ((forall i j,
          In i (without_seeds idx1 idx2 (combined order res1 res2)) ->
          In j (without_seeds idx1 idx2 (combined order res1 res2)) ->
          (blended_score res1 res2 i == blended_score res1 res2 j)%Q -> i = j) ->
      without_seeds idx1 idx2 (ranked order res1 res2)
      = without_seeds idx2 idx1 (ranked order res2 res1)).
Proof.
  split; [apply combined_exchange |].
  split; [intros i; apply blended_score_comm |].
  split; [apply ranked_exchange_perm |].
  split; [apply StronglySorted_filter, sorted_reverse_sorted |].
  split; [apply ranked_exchange_sorted |].
  apply ranked_exchange_eq.
Qed.

(** C7, counterexample: the catalogue of 300 movies, seeds 5000 (row 0)
    and 5299 (row 299), six recommendations.  All candidates have blended
    score 0; with row 0 as first seed rows 1 to 6 are returned, with row
    299 as first seed rows 1, 2, 3, 260, 261, 262. *)
Lemma recommend_not_symmetric_arc :
  returned_labels (fst (recommend cpython arc 5000 5299 6 [])) = [1; 2; 3; 4; 5; 6]
  /\ returned_labels (fst (recommend cpython arc 5299 5000 6 [])) = [1; 2; 3; 260; 261; 262]
  /\ fst (recommend cpython arc 5000 5299 6 []) <> fst (recommend cpython arc 5299 5000 6 []).
Proof.
  assert (A : returned_labels (fst (recommend cpython arc 5000 5299 6 []))
              = [1; 2; 3; 4; 5; 6]) by (vm_compute; reflexivity).
  assert (B : returned_labels (fst (recommend cpython arc 5299 5000 6 []))
              = [1; 2; 3; 260; 261; 262]) by (vm_compute; reflexivity).
  split; [exact A |]. split; [exact B |].
  intros H. rewrite H in A. rewrite A in B. discriminate B.
Qed.

(** ** The returned frames when no scores are tied *)

Lemma card_app_comm (a b : list string) : card (a ++ b) = card (b ++ a).
Proof.
  unfold card. apply Permutation_length, NoDup_Permutation; try apply NoDup_nodup.
  intros s. rewrite !nodup_In, !in_app_iff. tauto.
Qed.

Lemma common_app_comm (x a b : list string) : common x (a ++ b) = common x (b ++ a).
Proof.
  unfold common. apply filter_ext. intros s.
  destruct (in_dec string_dec s (a ++ b)) as [H | H];
    destruct (in_dec string_dec s (b ++ a)) as [H' | H']; try reflexivity;
    exfalso; rewrite in_app_iff in H, H'; tauto.
Qed.

Lemma genre_overlap_ratio_comm (genres genres1 genres2 : string) :
  genre_overlap_ratio genres genres1 genres2 = genre_overlap_ratio genres genres2 genres1.
Proof.
  unfold genre_overlap_ratio, seed_genre_set.
  rewrite (card_app_comm (Py.split genres1)), (common_app_comm _ (Py.split genres1)).
  reflexivity.
Qed.

Lemma scored_determined (df : frame) (s s' : list string) (w : list Z)
  (recs recs' : list labelled_row) :
  (forall r, _genre_bonus r s = _genre_bonus r s') ->
  Forall2 (row_at df) w recs -> Forall2 (row_at df) w recs' ->
  scored s recs = scored s' recs'.
Proof.
  intros Hs H. revert recs'.
  induction H as [|i r w recs [p [Hp [Hl Hr]]] _ IH]; intros recs' H'.
  - inversion H'. reflexivity.
  - inversion H' as [|? r' ? recs0 [p' [Hp' [Hl' Hr']]] Hrest]; subst. cbn [scored map].
    rewrite Hp in Hp'. injection Hp' as <-.
    rewrite Hr in Hr'. injection Hr' as Hrow.
    f_equal; [| apply IH, Hrest].
    rewrite Hl, Hl', Hrow, Hs. reflexivity.
Qed.

(** X12: for a well-formed system, when no two candidates other than the
    seeds have equal blended scores, [recommend] with the seeds exchanged
    returns the same frame, genre scores included. *)
Lemma recommend_symmetric_without_ties (order : set_order) (self : MovieRecommender)
  (movie_id1 movie_id2 top_n idx1 idx2 : Z) (emb1 emb2 : Faiss.vector)
  (tr : list event) :
  well_formed self ->
  dict_get (self_id_to_index self) movie_id1 = Some idx1 ->
  dict_get (self_id_to_index self) movie_id2 = Some idx2 ->
  getitem (embeddings (emb_manager self)) idx1 = Some emb1 ->
  getitem (embeddings (emb_manager self)) idx2 = Some emb2 ->
  (forall i j,
      In i (without_seeds idx1 idx2
              (combined order (search_similar (emb_manager self) emb1 40)
                              (search_similar (emb_manager self) emb2 40))) ->
      In j (without_seeds idx1 idx2
              (combined order (search_similar (emb_manager self) emb1 40)
                              (search_similar (emb_manager self) emb2 40))) ->
      (blended_score (search_similar (emb_manager self) emb1 40)
                     (search_similar (emb_manager self) emb2 40) i
       == blended_score (search_similar (emb_manager self) emb1 40)
                        (search_similar (emb_manager self) emb2 40) j)%Q ->
      i = j) ->
  fst (recommend order self movie_id1 movie_id2 top_n tr)
  = fst (recommend order self movie_id2 movie_id1 top_n tr).
Proof.
  intros Hwf H1 H2 E1 E2 Hinj.
  destruct (recommend_runs order self movie_id1 movie_id2 top_n idx1 idx2 tr Hwf H1 H2)
    as [a1 [a2 [g1 [g2 [recs [E1' [E2' [G1 [G2 [Hrows [Hrec _]]]]]]]]]]].
  destruct (recommend_runs order self movie_id2 movie_id1 top_n idx2 idx1 tr Hwf H2 H1)
    as [b2 [b1 [g2' [g1' [recs' [F2 [F1 [G2' [G1' [Hrows' [Hrec' _]]]]]]]]]]].
  rewrite E1 in E1', F1. rewrite E2 in E2', F2.
  injection E1' as <-. injection E2' as <-. injection F1 as <-. injection F2 as <-.
  rewrite G1 in G1'. rewrite G2 in G2'. injection G1' as <-. injection G2' as <-.
  rewrite Hrec, Hrec'. cbn [fst]. f_equal.
  pose proof (ranked_exchange_eq order
                (search_similar (emb_manager self) emb1 40)
                (search_similar (emb_manager self) emb2 40) idx1 idx2 Hinj) as Heq.
  unfold window in Hrows, Hrows'. rewrite <- Heq in Hrows'.
  refine (scored_determined (movies_df self) _ _ _ _ _ _ Hrows Hrows').
  intros r. rewrite !genre_bonus_ratio. apply genre_overlap_ratio_comm.
Qed.

(* ================================================================== *)
(** * The interpreter's order on the inputs above                      *)
(* ================================================================== *)

(** On the pools evaluated in this file the hash-table model yields a
    proper enumeration, so [cpython] is CPython's order there. *)
Example cpython_order_toy :
  union_list cpython (snd (search_similar (emb_manager toy) [1; 0]%Q 40))
                     (snd (search_similar (emb_manager toy) [0; 1]%Q 40))
  = CPython.union_list (snd (search_similar (emb_manager toy) [1; 0]%Q 40))
                       (snd (search_similar (emb_manager toy) [0; 1]%Q 40))
  /\ CPython.union_list (snd (search_similar (emb_manager toy) [1; 0]%Q 40))
                        (snd (search_similar (emb_manager toy) [0; 1]%Q 40))
     = [0; 1; 2; -1].
Proof. split; vm_compute; reflexivity. Qed.

Example arc_neighbours :
  snd (search_similar (emb_manager arc) (arc_vector 0) 40) = map Z.of_nat (seq 0 40)
  /\ snd (search_similar (emb_manager arc) (arc_vector 299) 40)
     = map Z.of_nat (rev (seq 260 40)).
Proof. split; vm_compute; reflexivity. Qed.

Example cpython_order_arc :
  enumerates
    (CPython.union_list (map Z.of_nat (rev (seq 260 40))) (map Z.of_nat (seq 0 40)))
    (map Z.of_nat (rev (seq 260 40))) (map Z.of_nat (seq 0 40)) = true
  /\ firstn 8 (CPython.union_list (map Z.of_nat (rev (seq 260 40)))
                                  (map Z.of_nat (seq 0 40)))
     = [0; 1; 2; 3; 260; 261; 262; 263]
  /\ firstn 8 (CPython.union_list (map Z.of_nat (seq 0 40))
                                  (map Z.of_nat (rev (seq 260 40))))
     = [0; 1; 2; 3; 4; 5; 6; 7].
Proof. repeat split; vm_compute; reflexivity. Qed.

(** Small sets, as the interpreter lists them. *)
Example cpython_small_sets :
  CPython.union_list [1; 8] [] = [8; 1]
  /\ CPython.union_list [256; 1] [3] = [256; 1; 3]
  /\ CPython.union_list [3; 1; 2] [2; -1] = [1; 2; 3; -1].
Proof. repeat split; reflexivity. Qed.

(* ================================================================== *)
(** * The mapping from identifier to row                               *)
(* ================================================================== *)

Lemma combine_snoc {A B : Type} (l : list A) (l' : list B) (a : A) (b : B) :
  List.length l = List.length l' ->
  combine (l ++ [a]) (l' ++ [b]) = combine l l' ++ [(a, b)].
Proof.
  revert l'. induction l as [|x l IH]; intros [|y l'] Hlen; cbn in *;
    try discriminate; [reflexivity |].
  f_equal. apply IH. lia.
Qed.

Lemma nth_error_lt {A : Type} (l : list A) (n : nat) (x : A) :
  nth_error l n = Some x -> (n < List.length l)%nat.
Proof. intros H. apply nth_error_Some. rewrite H. discriminate. Qed.

Lemma enumerate_snoc (l : list Z) (x : Z) :
  enumerate (l ++ [x]) = enumerate l ++ [(Z.of_nat (List.length l), x)].
Proof.
  unfold enumerate. rewrite length_app. cbn [List.length].
  rewrite seq_app, map_app. cbn [seq map]. rewrite Nat.add_0_l.
  apply combine_snoc. rewrite length_map, length_seq. reflexivity.
Qed.

Lemma build_id_to_index_snoc (movie_ids : list Z) (x : Z) :
  build_id_to_index (movie_ids ++ [x])
  = (x, Z.of_nat (List.length movie_ids)) :: build_id_to_index movie_ids.
Proof.
  unfold build_id_to_index. rewrite enumerate_snoc, fold_left_app. reflexivity.
Qed.

(** What a lookup in the built mapping returns: the position of the last
    occurrence of the identifier in the list it was built from. *)
Lemma dict_get_build (movie_ids : list Z) (k v : Z) :
  dict_get (build_id_to_index movie_ids) k = Some v
  <-> exists n, v = Z.of_nat n
                /\ nth_error movie_ids n = Some k
                /\ ~ In k (skipn (S n) movie_ids).
Proof.
  revert v. induction movie_ids as [|x l IH] using rev_ind; intros v.
  - cbn. split; [discriminate |]. intros [n [_ [H _]]]. destruct n; discriminate.
  - rewrite build_id_to_index_snoc. cbn [dict_get].
    destruct (Z.eqb_spec x k) as [-> | Hne].
    + split.
      * intros H. injection H as <-. exists (List.length l).
        split; [reflexivity |]. split.
        -- rewrite nth_error_app2 by lia. rewrite Nat.sub_diag. reflexivity.
        -- rewrite skipn_all2 by (rewrite length_app; cbn; lia). intros [].
      * intros [n [-> [Hn Hlast]]]. f_equal. f_equal.
        destruct (Nat.lt_trichotomy n (List.length l)) as [Hlt | [-> | Hgt]].
        -- exfalso. apply Hlast. rewrite skipn_app. apply in_or_app. right.
           replace (S n - List.length l)%nat with O by lia. left. reflexivity.
        -- reflexivity.
        -- apply nth_error_lt in Hn. rewrite length_app in Hn. cbn in Hn. lia.
    + rewrite IH. split.
      * intros [n [-> [Hn Hlast]]]. exists n. split; [reflexivity |].
        assert (Hlt : (n < List.length l)%nat) by (apply nth_error_lt in Hn; exact Hn).
        split; [rewrite nth_error_app1 by exact Hlt; exact Hn |].
        rewrite skipn_app. intros Hin. apply in_app_or in Hin as [Hin | Hin].
        -- contradiction.
        -- replace (S n - List.length l)%nat with O in Hin by lia.
           destruct Hin as [Hin | []]. contradiction.
      * intros [n [-> [Hn Hlast]]]. exists n. split; [reflexivity |].
        assert (Hlt : (n < List.length l)%nat).
        { destruct (Nat.lt_ge_cases n (List.length l)) as [Hlt | Hge]; [exact Hlt |].
          rewrite nth_error_app2 in Hn by exact Hge.
          destruct (n - List.length l)%nat as [|m]; cbn in Hn.
          - injection Hn as Hn. contradiction.
          - destruct m; discriminate. }
        split; [rewrite nth_error_app1 in Hn by exact Hlt; exact Hn |].
        intros Hin. apply Hlast. rewrite skipn_app. apply in_or_app. left. exact Hin.
Qed.

Lemma last_occurrence (l : list Z) (k : Z) :
  In k l -> exists n, nth_error l n = Some k /\ ~ In k (skipn (S n) l).
Proof.
  induction l as [|x l IH]; intros Hin; [contradiction |].
  destruct (in_dec Z.eq_dec k l) as [Hl | Hl].
  - destruct (IH Hl) as [n [Hn Hlast]]. exists (S n). split; assumption.
  - destruct Hin as [-> | Hin]; [| contradiction].
    exists O. split; [reflexivity | exact Hl].
Qed.

(** X1: an identifier is in the mapping that [build_embeddings] builds
    exactly when it occurs in the list of movie identifiers. *)
Theorem id_to_index_membership (embs : list Faiss.vector) (movie_ids : list Z) (k : Z) :
  dict_in k (id_to_index (build_embeddings embs movie_ids)) = true <-> In k movie_ids.
Proof.
  cbn [build_embeddings id_to_index]. unfold dict_in. split.
  - destruct (dict_get (build_id_to_index movie_ids) k) as [v|] eqn:H; [| discriminate].
    intros _. apply dict_get_build in H as [n [_ [Hn _]]]. apply nth_error_In in Hn. exact Hn.
  - intros Hin. apply last_occurrence in Hin as [n [Hn Hlast]].
    assert (H : dict_get (build_id_to_index movie_ids) k = Some (Z.of_nat n))
      by (apply dict_get_build; exists n; auto).
    rewrite H. reflexivity.
Qed.

(** X2: insert then look up.  The identifier at position [n] is mapped to
    [n] when it does not occur again later in the list (a later occurrence
    takes the entry over); so for a list without repetition every
    identifier is mapped to its own position. *)
Theorem id_to_index_round_trip (embs : list Faiss.vector) (movie_ids : list Z)
  (n : nat) (k : Z) :
  nth_error movie_ids n = Some k ->
  ~ In k (skipn (S n) movie_ids) ->
  dict_get (id_to_index (build_embeddings embs movie_ids)) k = Some (Z.of_nat n).
Proof.
  intros Hn Hlast. cbn [build_embeddings id_to_index].
  apply dict_get_build. exists n. auto.
Qed.

Lemma id_to_index_round_trip_toy :
  nth_error [101; 102; 103; 102] 1 = Some 102
  /\ nth_error [101; 102; 103; 102] 3 = Some 102
  /\ ~ In 102 (skipn 4 [101; 102; 103; 102])
  /\ dict_get (id_to_index (build_embeddings [] [101; 102; 103; 102])) 102 = Some 3.
Proof.
  assert (H : ~ In 102 (skipn 4 [101; 102; 103; 102])) by (intros []).
  split; [reflexivity |]. split; [reflexivity |]. split; [exact H |].
  exact (id_to_index_round_trip [] [101; 102; 103; 102] 3 102 eq_refl H).
Defined.

(** X3: in a system put together by [initialize_system] from a table and
    a matrix of the same length, the row that an identifier of the mapping
    resolves to exists in the table and in the matrix, and it is a row of
    the table with that identifier. *)
Theorem initialize_system_resolves (movies : frame) (embs : list Faiss.vector)
  (movie_id idx : Z) :
  List.length embs = List.length movies ->
  dict_get (self_id_to_index (initialize_system movies embs)) movie_id = Some idx ->
  exists m v,
    0 <= idx
    /\ nth_error movies (Z.to_nat idx) = Some m
    /\ id m = movie_id
    /\ nth_error embs (Z.to_nat idx) = Some v.
Proof.
  intros Hlen H. unfold self_id_to_index, initialize_system in H.
  cbn [emb_manager build_embeddings id_to_index] in H.
  apply dict_get_build in H as [n [-> [Hn _]]].
  rewrite nth_error_map in Hn. rewrite Nat2Z.id.
  destruct (nth_error movies n) as [m|] eqn:Hm; [| discriminate].
  cbn in Hn. injection Hn as Hid.
  destruct (nth_error embs n) as [v|] eqn:Hv.
  - exists m, v. repeat split; try assumption; try reflexivity. lia.
  - apply nth_error_None in Hv. apply nth_error_lt in Hm. lia.
Qed.

Lemma initialize_system_resolves_toy :
  List.length toy_embeddings = List.length toy_movies
  /\ dict_get (self_id_to_index (initialize_system toy_movies toy_embeddings)) 103 = Some 2
  /\ exists m v,
       0 <= 2
       /\ nth_error toy_movies (Z.to_nat 2) = Some m
       /\ id m = 103
       /\ nth_error toy_embeddings (Z.to_nat 2) = Some v.
Proof.
  split; [reflexivity |]. split; [reflexivity |].
  exact (initialize_system_resolves toy_movies toy_embeddings 103 2 eq_refl eq_refl).
Defined.

(* ================================================================== *)
(** * get_embedding                                                    *)
(* ================================================================== *)

(** X4: [get_embedding] fails with ValueError, naming the identifier and
    without reading the matrix, exactly when the identifier is not in the
    mapping; for an identifier of a well-formed system it returns the
    stored vector of the row the identifier is mapped to, after one read.
    That vector is the one [recommend] searches with. *)
Theorem get_embedding_spec (self : MovieRecommender) (movie_id : Z) (tr : list event) :
  well_formed self ->
  match dict_get (self_id_to_index self) movie_id with
  | None =>
      get_embedding (emb_manager self) movie_id tr
      = (inl (Py.ValueError ("Movie ID " ++ str_of_int movie_id ++ " not found")%string), tr)
  | Some idx =>
      exists v,
        nth_error (embeddings (emb_manager self)) (Z.to_nat idx) = Some v
        /\ get_embedding (emb_manager self) movie_id tr = (inr v, tr ++ [GetEmbedding idx])
  end.
Proof.
  intros [_ [Hlen Hdict]]. unfold get_embedding, self_id_to_index in *.
  destruct (dict_get (id_to_index (emb_manager self)) movie_id) as [idx|] eqn:H;
    [| reflexivity].
  pose proof (Hdict _ _ H) as Hr. rewrite <- Hlen in Hr.
  destruct (getitem_in_range (embeddings (emb_manager self)) idx Hr) as [v Hv].
  exists v. split.
  - unfold getitem in Hv. rewrite position_in_range in Hv by exact Hr. exact Hv.
  - apply read_embedding_ok, Hv.
Qed.

Lemma get_embedding_spec_toy :
  well_formed toy
  /\ get_embedding (emb_manager toy) 7 []
     = (inl (Py.ValueError "Movie ID 7 not found"), [])
  /\ exists v,
       nth_error (embeddings (emb_manager toy)) (Z.to_nat 1) = Some v
       /\ get_embedding (emb_manager toy) 102 [] = (inr v, [] ++ [GetEmbedding 1]).
Proof.
  split; [exact toy_well_formed |].
  split.
  - exact (get_embedding_spec toy 7 [] toy_well_formed).
  - exact (get_embedding_spec toy 102 [] toy_well_formed).
Defined.

(* ================================================================== *)
(** * What a call does, whatever its inputs                            *)
(* ================================================================== *)


Lemma iloc_rows_error (df : frame) (ixs : list Z) (e : Py.exn) :
  iloc df ixs = inl e -> e = Py.IndexError "positional indexers are out-of-bounds".
Proof.
  revert e. induction ixs as [|i ixs IH]; intros e H; cbn [iloc] in H; [discriminate |].
  destruct (position (List.length df) i) as [p|].
  - destruct (iloc df ixs) as [e' | rows].
    + injection H as <-. apply IH. reflexivity.
    + destruct (nth_error df p); [discriminate | injection H as <-; reflexivity].
  - destruct (iloc df ixs); injection H as <-; reflexivity.
Qed.

Lemma combined_genres_error (self : MovieRecommender) (idx1 idx2 : Z) (e : Py.exn) :
  _get_combined_genres self idx1 idx2 = inl e -> exists l, e = Py.KeyError l.
Proof.
  unfold _get_combined_genres, loc_genres. intros H.
  repeat match type of H with
         | context [if ?b then _ else _] => destruct b
         | context [match nth_error ?l ?n with _ => _ end] => destruct (nth_error l n)
         end;
    try discriminate; injection H as <-; eauto.
Qed.

Lemma unscored_scored (seed_genres : list string) (recs : list labelled_row) :
  unscored (scored seed_genres recs) = unscored recs.
Proof. unfold unscored, scored. rewrite map_map. reflexivity. Qed.

(** X6: the script's [recommend_movies] and [MovieRecommender.recommend]
    agree on every input: they leave the same trace; when one returns a
    frame the other returns the same rows with the same labels in the same
    order (without the score column in the script); when [recommend]
    raises ValueError the script returns its message; any other exception
    is raised by both. *)
Theorem script_agrees_with_module (order : set_order) (self : MovieRecommender)
  (movie_id1 movie_id2 top_n : Z) (tr : list event) :
  snd (recommend_movies order self movie_id1 movie_id2 top_n tr)
  = snd (recommend order self movie_id1 movie_id2 top_n tr)
  /\ match fst (recommend order self movie_id1 movie_id2 top_n tr) with
     | inr recs =>
         fst (recommend_movies order self movie_id1 movie_id2 top_n tr)
         = inr (inr (unscored recs))
     | inl (Py.ValueError _) =>
         fst (recommend_movies order self movie_id1 movie_id2 top_n tr)
         = inr (inl "Movie ID not found"%string)
     | inl e =>
         fst (recommend_movies order self movie_id1 movie_id2 top_n tr) = inl e
     end.
Proof.
  unfold recommend, recommend_movies.
  destruct (dict_get (self_id_to_index self) movie_id1) as [idx1|];
    [| split; reflexivity].
  destruct (dict_get (self_id_to_index self) movie_id2) as [idx2|];
    [| split; reflexivity].
  unfold read_embedding, run_search, emit, lift, ret, raise, bind. cbv beta iota.
  destruct (getitem (embeddings (emb_manager self)) idx1) as [emb1|];
    [| split; reflexivity].
  cbv beta iota.
  destruct (getitem (embeddings (emb_manager self)) idx2) as [emb2|];
    [| split; reflexivity].
  cbv beta iota.
  destruct (iloc (movies_df self) _) as [e | rows] eqn:Hiloc.
  - split; [reflexivity |]. cbn [fst].
    apply iloc_rows_error in Hiloc. subst e. reflexivity.
  - apply iloc_added in Hiloc.
    destruct (_get_combined_genres self idx1 idx2) as [e | seed_genres] eqn:Hg.
    + split; [reflexivity |]. cbn [fst].
      apply combined_genres_error in Hg as [l ->]. reflexivity.
    + split; [reflexivity |]. cbn [fst].
      rewrite select_scored, select_unscored, unscored_scored by exact Hiloc.
      reflexivity.
Qed.

(* ================================================================== *)
(** * How many entries come back                                       *)
(* ================================================================== *)

Lemma combined_length (order : set_order) (self : EmbeddingManager)
  (emb1 emb2 : Faiss.vector) :
  (List.length (combined order (search_similar self emb1 40) (search_similar self emb2 40))
   <= 80)%nat.
Proof.
  unfold combined, search_similar.
  destruct (search_lengths (index self) emb1 40) as [_ H1].
  destruct (search_lengths (index self) emb2 40) as [_ H2].
  replace 80%nat
    with (List.length (snd (Faiss.search (index self) emb1 40)
                       ++ snd (Faiss.search (index self) emb2 40)))
    by (rewrite length_app, H1, H2; reflexivity).
  apply NoDup_incl_length; [apply union_list_NoDup |].
  intros i Hi. apply in_or_app. apply union_list_In in Hi. exact Hi.
Qed.

Lemma filter_length_le {A : Type} (f : A -> bool) (l : list A) :
  (List.length (filter f l) <= List.length l)%nat.
Proof.
  induction l as [|x l IH]; cbn; [lia |]. destruct (f x); cbn; lia.
Qed.

(** X7: a well-formed system asked for a positive number of
    recommendations returns at most that many entries, and never more
    than 80 (two searches of 40), however many are asked for. *)
Theorem recommend_count (order : set_order) (self : MovieRecommender)
  (movie_id1 movie_id2 top_n idx1 idx2 : Z) (tr : list event) :
  well_formed self ->
  0 < top_n ->
  dict_get (self_id_to_index self) movie_id1 = Some idx1 ->
  dict_get (self_id_to_index self) movie_id2 = Some idx2 ->
  exists recs,
    fst (recommend order self movie_id1 movie_id2 top_n tr) = inr recs
    /\ Z.of_nat (List.length recs) <= top_n
    /\ (List.length recs <= 80)%nat.
Proof.
  intros Hwf Hn H1 H2.
  destruct (recommend_runs order self movie_id1 movie_id2 top_n idx1 idx2 tr Hwf H1 H2)
    as [emb1 [emb2 [g1 [g2 [recs [_ [_ [_ [_ [Hrows [Hrec _]]]]]]]]]]].
  exists (scored (Py.str_set (Py.split (g1 ++ " " ++ g2)%string)) recs).
  split; [rewrite Hrec; reflexivity |].
  apply Forall2_length in Hrows. unfold scored. rewrite length_map, <- Hrows.
  unfold window, Py.slice_to. destruct (Z.leb_spec 0 top_n); [| lia].
  rewrite length_firstn. split; [lia |].
  pose proof (filter_length_le
                (fun i => negb ((i =? idx1) || (i =? idx2)))
                (ranked order (search_similar (emb_manager self) emb1 40)
                              (search_similar (emb_manager self) emb2 40))) as Hf.
  fold (without_seeds idx1 idx2
          (ranked order (search_similar (emb_manager self) emb1 40)
                        (search_similar (emb_manager self) emb2 40))) in Hf.
  unfold ranked in Hf at 2. rewrite sorted_reverse_length in Hf.
  pose proof (combined_length order (emb_manager self) emb1 emb2). lia.
Qed.

Lemma recommend_count_arc :
  well_formed arc
  /\ 0 < 1000
  /\ dict_get (self_id_to_index arc) 5000 = Some 0
  /\ dict_get (self_id_to_index arc) 5299 = Some 299
  /\ exists recs,
       fst (recommend cpython arc 5000 5299 1000 []) = inr recs
       /\ Z.of_nat (List.length recs) <= 1000
       /\ (List.length recs <= 80)%nat.
Proof.
  assert (H1 : dict_get (self_id_to_index arc) 5000 = Some 0) by (vm_compute; reflexivity).
  assert (H2 : dict_get (self_id_to_index arc) 5299 = Some 299) by (vm_compute; reflexivity).
  split; [exact arc_well_formed |]. split; [lia |].
  split; [exact H1 |]. split; [exact H2 |].
  exact (recommend_count cpython arc 5000 5299 1000 0 299 [] arc_well_formed eq_refl H1 H2).
Defined.

(* ================================================================== *)
(** * The blended score favours rows listed by both searches            *)
(* ================================================================== *)

Lemma score_or_zero_absent (scores : list Q) (idxs : list Z) (i : Z) :
  ~ In i idxs -> score_or_zero scores idxs i = 0%Q.
Proof.
  intros H. unfold score_or_zero. apply contains_false in H. rewrite H. reflexivity.
Qed.

(** X8: the blended score of a row never exceeds its similarity to either
    seed, and a row that one of the two searches does not list has a
    blended score of at most 0, however similar it is to the other seed. *)
Theorem blended_score_upper (res1 res2 : list Q * list Z) (i : Z) :
  (blended_score res1 res2 i <= score_or_zero (fst res1) (snd res1) i)%Q
  /\ (blended_score res1 res2 i <= score_or_zero (fst res2) (snd res2) i)%Q
  /\ (~ In i (snd res1) \/ ~ In i (snd res2) -> blended_score res1 res2 i <= 0)%Q.
Proof.
  unfold blended_score. rewrite py_min_Qmin.
  split; [apply Q.le_min_l |]. split; [apply Q.le_min_r |].
  intros [H | H].
  - apply Qle_trans with (score_or_zero (fst res1) (snd res1) i); [apply Q.le_min_l |].
    rewrite (score_or_zero_absent _ _ _ H). apply Qle_refl.
  - apply Qle_trans with (score_or_zero (fst res2) (snd res2) i); [apply Q.le_min_r |].
    rewrite (score_or_zero_absent _ _ _ H). apply Qle_refl.
Qed.

Lemma StronglySorted_app_r {A : Type} (R : A -> A -> Prop) (l1 l2 : list A) :
  StronglySorted R (l1 ++ l2) -> StronglySorted R l2.
Proof.
  induction l1 as [|x l1 IH]; cbn; intros H; [exact H |].
  inversion H; subst. apply IH. assumption.
Qed.

(** X9: in the ranking, no row that only one search lists comes before a
    row with a positive similarity to both seeds. *)
Theorem both_listed_first (order : set_order) (res1 res2 : list Q * list Z) (i j : Z) :
  (0 < score_or_zero (fst res1) (snd res1) i)%Q ->
  (0 < score_or_zero (fst res2) (snd res2) i)%Q ->
  ~ In j (snd res1) \/ ~ In j (snd res2) ->
  forall l1 l2 l3, ranked order res1 res2 <> l1 ++ j :: l2 ++ i :: l3.
Proof.
  intros Hi1 Hi2 Hj l1 l2 l3 Heq.
  pose proof (sorted_reverse_sorted (blended_score res1 res2) (combined order res1 res2)) as Hs.
  fold (ranked order res1 res2) in Hs. rewrite Heq in Hs.
  apply StronglySorted_app_r in Hs. inversion Hs as [|? ? _ Hall]; subst.
  rewrite Forall_forall in Hall.
  assert (Hle : key_ge (blended_score res1 res2) j i)
    by (apply Hall, in_or_app; right; left; reflexivity).
  unfold key_ge in Hle.
  assert (Hpos : (0 < blended_score res1 res2 i)%Q).
  { unfold blended_score. rewrite py_min_Qmin. apply Q.min_glb_lt; assumption. }
  assert (Hneg : (blended_score res1 res2 j <= 0)%Q).
  { unfold blended_score. rewrite py_min_Qmin. destruct Hj as [H | H].
    - apply Qle_trans with (score_or_zero (fst res1) (snd res1) j); [apply Q.le_min_l |].
      rewrite (score_or_zero_absent _ _ _ H). apply Qle_refl.
    - apply Qle_trans with (score_or_zero (fst res2) (snd res2) j); [apply Q.le_min_r |].
      rewrite (score_or_zero_absent _ _ _ H). apply Qle_refl. }
  apply (Qlt_irrefl 0). apply Qlt_le_trans with (blended_score res1 res2 i); [exact Hpos |].
  apply Qle_trans with (blended_score res1 res2 j); assumption.
Qed.

Lemma both_listed_first_example :
  (0 < score_or_zero [9 # 10; 5 # 10] [7; 2]%Z 7%Z)%Q
  /\ (0 < score_or_zero [8 # 10; 1 # 10] [3; 7]%Z 7%Z)%Q
  /\ (~ In 2 [7; 2] \/ ~ In 2 [3; 7])
  /\ forall l1 l2 l3,
       ranked cpython ([9 # 10; 5 # 10]%Q, [7; 2]) ([8 # 10; 1 # 10]%Q, [3; 7])
       <> l1 ++ 2 :: l2 ++ 7 :: l3.
Proof.
  assert (Hj : ~ In 2 [7; 2] \/ ~ In 2 [3; 7]).
  { right. intros [H | [H | []]]; discriminate H. }
  split; [reflexivity |]. split; [reflexivity |]. split; [exact Hj |].
  exact (both_listed_first cpython ([9 # 10; 5 # 10]%Q, [7; 2]) ([8 # 10; 1 # 10]%Q, [3; 7])
           7 2 eq_refl eq_refl Hj).
Defined.

(** The ranking of that example: row 7, listed by both, comes first, though
    rows 2 and 3 are listed with higher scores than 7 has in the second
    list. *)
Example ranked_example :
  ranked cpython ([9 # 10; 5 # 10]%Q, [7; 2]) ([8 # 10; 1 # 10]%Q, [3; 7]) = [7; 2; 3].
Proof. reflexivity. Qed.

(* ================================================================== *)
(** * The genre score stays below 1                                    *)
(* ================================================================== *)

Lemma inter_len_le (a b : list string) :
  (Py.inter_len (Py.str_set a) b <= List.length b)%nat.
Proof.
  unfold Py.inter_len, Py.str_set. apply NoDup_incl_length.
  - apply NoDup_filter, NoDup_nodup.
  - intros s Hs. apply filter_In in Hs as [_ Hs]. apply str_mem_In, Hs.
Qed.

Lemma inter_len_zero (a b : list string) :
  Py.inter_len (Py.str_set a) b = O <-> forall t, In t a -> ~ In t b.
Proof.
  unfold Py.inter_len, Py.str_set. split.
  - intros H t Ha Hb.
    assert (Hin : In t (filter (fun s => Py.str_mem s b) (nodup string_dec a))).
    { apply filter_In. split; [apply nodup_In, Ha | apply str_mem_In, Hb]. }
    destruct (filter (fun s => Py.str_mem s b) (nodup string_dec a)); [contradiction |].
    discriminate H.
  - intros H.
    destruct (filter (fun s => Py.str_mem s b) (nodup string_dec a)) as [|t l] eqn:E;
      [reflexivity |].
    exfalso. assert (Hin : In t (t :: l)) by (left; reflexivity).
    rewrite <- E in Hin. apply filter_In in Hin as [Ha Hb].
    apply (H t); [apply nodup_In in Ha; exact Ha | apply str_mem_In, Hb].
Qed.

(** X10: whatever the movie and the seed genres, the genre bonus is at
    least 0 and strictly below 1 (a movie with every seed genre still
    misses 1 by the constant in the denominator), and it is 0 exactly when
    the movie has no genre token in common with the seeds; in particular
    it is 0, not an error, when the seeds have no genre at all. *)
Theorem genre_bonus_below_one (r : movie) (seed_genres : list string) :
  (0 <= _genre_bonus r seed_genres)%Q
  /\ (_genre_bonus r seed_genres < 1)%Q
  /\ ((_genre_bonus r seed_genres == 0)%Q
      <-> forall t, In t (Py.split (genres_str r)) -> ~ In t seed_genres).
Proof.
  unfold _genre_bonus.
  pose proof (inter_len_le (Py.split (genres_str r)) seed_genres) as Hle.
  rewrite <- (inter_len_zero (Py.split (genres_str r)) seed_genres).
  set (a := Py.inter_len (Py.str_set (Py.split (genres_str r))) seed_genres) in *.
  set (b := List.length seed_genres) in *.
  assert (Ha : (0 <= inject_Z (Z.of_nat a))%Q).
  { change 0%Q with (inject_Z 0). rewrite <- Zle_Qle. lia. }
  assert (Hab : (inject_Z (Z.of_nat a) <= inject_Z (Z.of_nat b))%Q).
  { rewrite <- Zle_Qle. lia. }
  pose proof epsilon_pos as He.
  assert (Hb : (0 < inject_Z (Z.of_nat b) + epsilon)%Q) by lra.
  split; [apply Qle_shift_div_l; [exact Hb | lra] |].
  split; [apply Qlt_shift_div_r; [exact Hb | lra] |].
  split.
  - intros H.
    assert (H0 : (inject_Z (Z.of_nat a) == 0)%Q).
    { rewrite <- (Qmult_div_r (inject_Z (Z.of_nat a)) (inject_Z (Z.of_nat b) + epsilon))
        by lra.
      rewrite H. ring. }
    unfold Qeq in H0. cbn in H0. lia.
  - intros ->. cbn [Z.of_nat]. unfold Qdiv. ring.
Qed.

(* ================================================================== *)
(** * Unit vectors: a movie is its own best match                      *)
(* ================================================================== *)








(* ================================================================== *)
(** * From the genre column to genre tokens                            *)
(* ================================================================== *)

(** Joining with single spaces and splitting on whitespace: the tokens of
    the joined text are the tokens of the parts, in order. *)
Lemma split_concat (names : list string) :
  Py.split (String.concat " " names) = flat_map Py.split names.
Proof.
  induction names as [|x names IH]; [reflexivity |].
  destruct names as [|y names].
  - cbn [String.concat flat_map]. rewrite app_nil_r. reflexivity.
  - change (String.concat " " (x :: y :: names))
      with (x ++ String " " (String.concat " " (y :: names)))%string.
    unfold Py.split at 1. rewrite split_aux_space.
    fold (Py.split x). rewrite IH. reflexivity.
Qed.

Lemma names_of_dicts (gs : list py_value) (names : list string) :
  Forall2 (fun g n => exists items, g = PyDict items /\ lookup_name items = Some (PyStr n))
          gs names ->
  names_of gs = Some names.
Proof.
  induction 1 as [|g n gs names [items [-> Hn]] _ IH]; [reflexivity |].
  cbn [names_of subscript_name]. rewrite Hn, IH. reflexivity.
Qed.

(** X14: for a cell whose text parses to a list of dictionaries, each with
    a text under ['name'], [clean_genres] (and [clean_keywords]) gives the
    names joined by single spaces, and the genre tokens that the
    recommender later obtains by splitting that text are the words of the
    names in order: a name of several words counts as several tokens. *)
Theorem clean_genres_tokens (literal_eval : string -> option py_value) (s : string)
  (gs : list py_value) (names : list string) :
  s <> "[]"%string ->
  literal_eval s = Some (PyList gs) ->
  Forall2 (fun g n => exists items, g = PyDict items /\ lookup_name items = Some (PyStr n))
          gs names ->
  clean_genres literal_eval (Text s) = String.concat " " names
  /\ clean_keywords literal_eval (Text s) = String.concat " " names
  /\ Py.split (clean_genres literal_eval (Text s)) = flat_map Py.split names.
Proof.
  intros Hs Hle Hnames.
  assert (E : clean_genres literal_eval (Text s) = String.concat " " names).
  { unfold clean_genres. apply String.eqb_neq in Hs. rewrite Hs, Hle.
    cbn [py_iter]. rewrite (names_of_dicts _ _ Hnames). reflexivity. }
  split; [exact E |]. split; [exact E |].
  rewrite E. apply split_concat.
Qed.

Lemma clean_genres_tokens_example :
  "[{'id': 18, 'name': 'Drama'}, {'id': 878, 'name': 'Science Fiction'}]"%string
  <> "[]"%string
  /\ clean_genres literal_eval_example
       (Text "[{'id': 18, 'name': 'Drama'}, {'id': 878, 'name': 'Science Fiction'}]")
     = String.concat " " ["Drama"; "Science Fiction"]%string
  /\ clean_keywords literal_eval_example
       (Text "[{'id': 18, 'name': 'Drama'}, {'id': 878, 'name': 'Science Fiction'}]")
     = String.concat " " ["Drama"; "Science Fiction"]%string
  /\ Py.split (clean_genres literal_eval_example
                 (Text "[{'id': 18, 'name': 'Drama'}, {'id': 878, 'name': 'Science Fiction'}]"))
     = flat_map Py.split ["Drama"; "Science Fiction"]%string.
Proof.
  assert (Hs : "[{'id': 18, 'name': 'Drama'}, {'id': 878, 'name': 'Science Fiction'}]"%string
               <> "[]"%string) by discriminate.
  split; [exact Hs |].
  refine (clean_genres_tokens literal_eval_example _ _ ["Drama"; "Science Fiction"]%string
            Hs eq_refl _).
  repeat constructor; eexists; split; reflexivity.
Defined.

(** The three tokens of that example. *)
Example clean_genres_example :
  Py.split (clean_genres literal_eval_example
              (Text "[{'id': 18, 'name': 'Drama'}, {'id': 878, 'name': 'Science Fiction'}]"))
  = ["Drama"; "Science"; "Fiction"]%string.
Proof. reflexivity. Qed.

(* ================================================================== *)
(** * The page: the grid of recommendations                            *)
(* ================================================================== *)

Lemma range_from_concat {A : Type} (l : list A) (fuel i : nat) :
  (List.length l <= i + fuel)%nat ->
  concat (map (fun j => slice l j (j + 3)) (range_from fuel i (List.length l) 3))
  = skipn i l.
Proof.
  revert i. induction fuel as [|fuel IH]; intros i Hf; cbn [range_from].
  - cbn. rewrite skipn_all2 by lia. reflexivity.
  - destruct (Nat.ltb_spec i (List.length l)) as [Hlt | Hge].
    + cbn [map concat]. rewrite IH by lia.
      unfold slice. replace (i + 3 - i)%nat with 3%nat by lia.
      replace (i + 3)%nat with (3 + i)%nat by lia.
      rewrite <- skipn_skipn. apply firstn_skipn.
    + cbn. rewrite skipn_all2 by lia. reflexivity.
Qed.

Lemma range_from_lt (fuel i stop step j : nat) :
  In j (range_from fuel i stop step) -> (j < stop)%nat.
Proof.
  revert i. induction fuel as [|fuel IH]; intros i Hin; cbn [range_from] in Hin;
    [contradiction |].
  destruct (Nat.ltb_spec i stop) as [Hlt | Hge]; [| contradiction].
  destruct Hin as [<- | Hin]; [exact Hlt | apply (IH _ Hin)].
Qed.

Lemma map_snd_combine_seq {A : Type} (l : list A) :
  map snd (combine (seq 0 (List.length l)) l) = l.
Proof.
  generalize 0%nat. induction l as [|x l IH]; intros b; cbn; [reflexivity |].
  f_equal. apply IH.
Qed.

(** X15: the page shows every recommendation exactly once and in the
    order returned, in lines of at most three; no line is empty and the
    column index of an entry is 0, 1 or 2, so [cols[col_idx]] is always
    one of the three columns. *)
Theorem grid_shows_each_once (recs : list labelled_row) :
  concat (map (map snd) (grid recs)) = recs
  /\ Forall (fun line => line <> [] /\ Forall (fun c => (fst c < 3)%nat) line) (grid recs).
Proof.
  unfold grid, range. rewrite Nat.sub_0_r. split.
  - rewrite map_map.
    rewrite (map_ext _ (fun j => slice recs j (j + 3)))
      by (intros j; apply map_snd_combine_seq).
    rewrite range_from_concat by lia. reflexivity.
  - apply Forall_forall. intros line Hline.
    apply in_map_iff in Hline as [j [<- Hj]]. apply range_from_lt in Hj.
    unfold slice. replace (j + 3 - j)%nat with 3%nat by lia. split.
    + destruct (skipn j recs) as [|x rest] eqn:E.
      * exfalso. assert (Hlen : List.length (skipn j recs) = O) by (rewrite E; reflexivity).
        rewrite length_skipn in Hlen. lia.
      * discriminate.
    + apply Forall_forall. intros [c x] Hc. apply in_combine_l in Hc.
      apply in_seq in Hc. rewrite length_firstn in Hc. cbn [fst]. lia.
Qed.

(* ================================================================== *)
(** * The page: from two titles to recommendations                     *)
(* ================================================================== *)

Lemma selected_id_in_table (df : frame) (selected : string) :
  In selected (map title df) ->
  exists m, selected_id df selected = inr (id m) /\ In m df /\ title m = selected.
Proof.
  intros Hin. apply in_map_iff in Hin as [m0 [Ht Hm0]].
  unfold selected_id.
  destruct (filter (fun m => String.eqb (title m) selected) df) as [|m rest] eqn:E.
  - exfalso. assert (Hf : In m0 (filter (fun m => String.eqb (title m) selected) df)).
    { apply filter_In. split; [exact Hm0 | apply String.eqb_eq, Ht]. }
    rewrite E in Hf. contradiction.
  - exists m. split; [reflexivity |].
    assert (Hf : In m (filter (fun m => String.eqb (title m) selected) df))
      by (rewrite E; left; reflexivity).
    apply filter_In in Hf as [Hm Ht']. split; [exact Hm | apply String.eqb_eq, Ht'].
Qed.

Lemma table_id_known (movies : frame) (embs : list Faiss.vector) (m : movie) :
  In m movies ->
  exists idx, dict_get (self_id_to_index (initialize_system movies embs)) (id m) = Some idx.
Proof.
  intros Hm. unfold self_id_to_index, initialize_system.
  cbn [emb_manager build_embeddings id_to_index].
  assert (Hin : In (id m) (map id movies)) by (apply in_map, Hm).
  apply last_occurrence in Hin as [n [Hn Hlast]].
  exists (Z.of_nat n). apply dict_get_build. exists n. auto.
Qed.

(** X16: on the page, where both titles are chosen from the titles of the
    table and the system is built by [initialize_system] from that table
    and a matrix with one row per movie, the identifiers found for the two
    titles are always known to the recommender and the call returns a
    frame: none of ValueError, IndexError or KeyError can be raised, for
    any positive number of recommendations. *)
Theorem page_recommend_succeeds (order : set_order) (movies : frame)
  (embs : list Faiss.vector) (selected_title1 selected_title2 : string)
  (num_recommendations : Z) (tr : list event) :
  List.length embs = List.length movies ->
  In selected_title1 (map title movies) ->
  In selected_title2 (map title movies) ->
  0 < num_recommendations ->
  exists movie_id1 movie_id2 recs,
    selected_id movies selected_title1 = inr movie_id1
    /\ selected_id movies selected_title2 = inr movie_id2
    /\ fst (recommend order (initialize_system movies embs) movie_id1 movie_id2
              num_recommendations tr) = inr recs.
Proof.
  intros Hlen Ht1 Ht2 Hn.
  destruct (selected_id_in_table movies _ Ht1) as [m1 [S1 [Hm1 _]]].
  destruct (selected_id_in_table movies _ Ht2) as [m2 [S2 [Hm2 _]]].
  destruct (table_id_known movies embs m1 Hm1) as [idx1 H1].
  destruct (table_id_known movies embs m2 Hm2) as [idx2 H2].
  destruct (recommend_runs order (initialize_system movies embs) (id m1) (id m2)
              num_recommendations idx1 idx2 tr
              (initialize_system_well_formed movies embs Hlen) H1 H2)
    as [emb1 [emb2 [g1 [g2 [recs [_ [_ [_ [_ [_ [Hrec _]]]]]]]]]]].
  exists (id m1), (id m2). eexists.
  split; [exact S1 |]. split; [exact S2 |]. rewrite Hrec. reflexivity.
Qed.

Lemma page_recommend_succeeds_toy :
  List.length toy_embeddings = List.length toy_movies
  /\ In "Alpha"%string (map title toy_movies)
  /\ In "Gamma"%string (map title toy_movies)
  /\ 0 < 3
  /\ exists movie_id1 movie_id2 recs,
       selected_id toy_movies "Alpha" = inr movie_id1
       /\ selected_id toy_movies "Gamma" = inr movie_id2
       /\ fst (recommend cpython (initialize_system toy_movies toy_embeddings)
                 movie_id1 movie_id2 3 []) = inr recs.
Proof.
  assert (H1 : In "Alpha"%string (map title toy_movies)) by (left; reflexivity).
  assert (H2 : In "Gamma"%string (map title toy_movies))
    by (right; right; left; reflexivity).
  split; [reflexivity |]. split; [exact H1 |]. split; [exact H2 |]. split; [lia |].
  exact (page_recommend_succeeds cpython toy_movies toy_embeddings "Alpha" "Gamma" 3 []
           eq_refl H1 H2 eq_refl).
Defined.

(* ================================================================== *)
(** * Fewer than 40 movies                                             *)
(* ================================================================== *)

Lemma search_unfilled (ix : Faiss.IndexFlatIP) (q : Faiss.vector) (k : nat) :
  (Faiss.ntotal ix < k)%nat -> In (-1) (snd (Faiss.search ix q k)).
Proof.
  intros Hlt. unfold Faiss.search. cbn [snd]. rewrite map_app. apply in_or_app. right.
  rewrite best_length, Nat.min_r by lia.
  destruct (k - Faiss.ntotal ix)%nat as [|n] eqn:E; [lia |]. left. reflexivity.
Qed.

Lemma Forall2_In_l {A B : Type} (R : A -> B -> Prop) (l : list A) (l' : list B) (x : A) :
  Forall2 R l l' -> In x l -> exists y, In y l' /\ R x y.
Proof.
  induction 1 as [|a b l l' Hab _ IH]; intros Hin; [contradiction |].
  destruct Hin as [<- | Hin].
  - exists b. split; [left; reflexivity | exact Hab].
  - destruct (IH Hin) as [y [Hy Hr]]. exists y. split; [right; exact Hy | exact Hr].
Qed.

(** X17: in a well-formed system over fewer than 40 movies, a call that
    asks for more recommendations than there are movies returns the last
    row of the table among its entries, whichever the seeds are: the
    unfilled slots of the two searches (label [-1]) are a candidate that
    the removal of the seeds keeps, and position [-1] of the table is its
    last row. *)
Theorem small_catalogue_returns_last_row (order : set_order) (self : MovieRecommender)
  (movie_id1 movie_id2 top_n idx1 idx2 : Z) (tr : list event) :
  well_formed self ->
  (List.length (movies_df self) < 40)%nat ->
  Z.of_nat (List.length (movies_df self)) < top_n ->
  dict_get (self_id_to_index self) movie_id1 = Some idx1 ->
  dict_get (self_id_to_index self) movie_id2 = Some idx2 ->
  exists recs,
    fst (recommend order self movie_id1 movie_id2 top_n tr) = inr recs
    /\ In (Z.of_nat (List.length (movies_df self)) - 1) (labels recs).
Proof.
  intros Hwf Hsmall Hn H1 H2.
  destruct (recommend_runs order self movie_id1 movie_id2 top_n idx1 idx2 tr Hwf H1 H2)
    as [emb1 [emb2 [g1 [g2 [recs [_ [_ [_ [_ [Hrows [Hrec _]]]]]]]]]]].
  destruct Hwf as [Hix [Hlen Hdict]].
  pose proof (Hdict _ _ H1) as R1. pose proof (Hdict _ _ H2) as R2.
  set (M := List.length (movies_df self)) in *.
  assert (Hnt : Faiss.ntotal (index (emb_manager self)) = M).
  { rewrite Hix. unfold Faiss.ntotal. rewrite build_index_xb. exact Hlen. }
  set (res1 := search_similar (emb_manager self) emb1 40) in *.
  set (res2 := search_similar (emb_manager self) emb2 40) in *.
  (* the unfilled slot is a candidate, and not a seed *)
  assert (Hc : In (-1) (without_seeds idx1 idx2 (ranked order res1 res2))).
  { unfold without_seeds. apply filter_In. split.
    - apply sorted_reverse_In, union_list_In. left.
      apply search_unfilled. rewrite Hnt. exact Hsmall.
    - apply negb_true_iff, orb_false_iff. split; apply Z.eqb_neq; lia. }
  (* the cut keeps every candidate *)
  assert (Hall : (List.length (without_seeds idx1 idx2 (ranked order res1 res2)) <= S M)%nat).
  { apply Nat.le_trans with (List.length (ranked order res1 res2));
      [apply filter_length_le |].
    unfold ranked. rewrite sorted_reverse_length.
    replace (S M) with (List.length ((-1) :: map Z.of_nat (seq 0 M)))
      by (cbn; rewrite length_map, length_seq; reflexivity).
    apply NoDup_incl_length; [apply union_list_NoDup |].
    intros i Hi. apply union_list_In in Hi.
    assert (Hl : i = -1 \/ 0 <= i < Z.of_nat M).
    { rewrite <- Hnt. destruct Hi as [Hi | Hi]; apply search_labels in Hi; exact Hi. }
    destruct Hl as [-> | Hl]; [left; reflexivity |].
    right. apply in_map_iff. exists (Z.to_nat i). split; [lia |]. apply in_seq. lia. }
  assert (Hw : In (-1) (window order res1 res2 idx1 idx2 top_n)).
  { unfold window, Py.slice_to. destruct (Z.leb_spec 0 top_n); [| lia].
    rewrite firstn_all2 by lia. exact Hc. }
  destruct (Forall2_In_l _ _ _ _ Hrows Hw) as [r [Hr [p [Hp [Hl _]]]]].
  exists (scored (Py.str_set (Py.split (g1 ++ " " ++ g2)%string)) recs).
  split; [rewrite Hrec; reflexivity |].
  unfold labels, scored. rewrite map_map. cbn [label].
  apply in_map_iff. exists r. split; [| exact Hr].
  rewrite Hl. unfold position in Hp. cbn [Z.leb Z.ltb Z.compare andb] in Hp.
  fold M in Hp.
  destruct (Z.leb_spec (- Z.of_nat M) (-1)); [| lia]. cbn [andb] in Hp.
  injection Hp as <-. lia.
Qed.

Lemma small_catalogue_returns_last_row_toy :
  well_formed toy
  /\ (List.length (movies_df toy) < 40)%nat
  /\ Z.of_nat (List.length (movies_df toy)) < 4
  /\ dict_get (self_id_to_index toy) 101 = Some 0
  /\ dict_get (self_id_to_index toy) 102 = Some 1
  /\ exists recs,
       fst (recommend cpython toy 101 102 4 []) = inr recs
       /\ In (Z.of_nat (List.length (movies_df toy)) - 1) (labels recs).
Proof.
  assert (Hs : (List.length (movies_df toy) < 40)%nat) by (cbn; lia).
  split; [exact toy_well_formed |]. split; [exact Hs |].
  split; [reflexivity |]. split; [reflexivity |]. split; [reflexivity |].
  exact (small_catalogue_returns_last_row cpython toy 101 102 4 0 1 []
           toy_well_formed Hs eq_refl eq_refl eq_refl).
Defined.

(* ================================================================== *)
(** * Instances of earlier lemmas                                      *)
(* ================================================================== *)

Lemma search_similar_exact_arc :
  (40 <= List.length (map arc_vector arc_rows))%nat
  /\ exact_result (map arc_vector arc_rows) (arc_vector 7) 40
       (search_similar (build_embeddings (map arc_vector arc_rows) (map id (map arc_movie arc_rows)))
                       (arc_vector 7) 40).
Proof.
  assert (H : (40 <= List.length (map arc_vector arc_rows))%nat)
    by (rewrite length_map; unfold arc_rows; rewrite length_map, length_seq; lia).
  split; [exact H |].
  exact (search_similar_exact (map arc_vector arc_rows) (map id (map arc_movie arc_rows))
           (arc_vector 7) 40 H).
Defined.

Lemma recommend_full_index_arc :
  well_formed arc
  /\ (40 <= List.length (movies_df arc))%nat
  /\ 0 < 6
  /\ dict_get (self_id_to_index arc) 5000 = Some 0
  /\ dict_get (self_id_to_index arc) 5299 = Some 299
  /\ exists emb1 emb2 recs,
       getitem (embeddings (emb_manager arc)) 0 = Some emb1
       /\ getitem (embeddings (emb_manager arc)) 299 = Some emb2
       /\ fst (recommend cpython arc 5000 5299 6 []) = inr recs
       /\ labels recs
          = firstn (Z.to_nat 6)
              (without_seeds 0 299
                 (ranked cpython (search_similar (emb_manager arc) emb1 40)
                                 (search_similar (emb_manager arc) emb2 40)))
       /\ forall l, In l (labels recs) ->
            l <> 0 /\ l <> 299
            /\ (In l (snd (search_similar (emb_manager arc) emb1 40))
                \/ In l (snd (search_similar (emb_manager arc) emb2 40))).
Proof.
  assert (Hb : (40 <= List.length (movies_df arc))%nat)
    by (cbn [arc initialize_system movies_df]; rewrite length_map; unfold arc_rows;
        rewrite length_map, length_seq; lia).
  assert (H1 : dict_get (self_id_to_index arc) 5000 = Some 0) by (vm_compute; reflexivity).
  assert (H2 : dict_get (self_id_to_index arc) 5299 = Some 299) by (vm_compute; reflexivity).
  split; [exact arc_well_formed |]. split; [exact Hb |]. split; [lia |].
  split; [exact H1 |]. split; [exact H2 |].
  exact (recommend_full_index cpython arc 5000 5299 6 0 299 []
           arc_well_formed Hb eq_refl H1 H2).
Defined.

Lemma recommend_symmetric_without_ties_toy :
  well_formed toy
  /\ dict_get (self_id_to_index toy) 101 = Some 0
  /\ dict_get (self_id_to_index toy) 102 = Some 1
  /\ getitem (embeddings (emb_manager toy)) 0 = Some [1; 0]%Q
  /\ getitem (embeddings (emb_manager toy)) 1 = Some [3 # 5; 4 # 5]%Q
  /\ (forall i j,
        In i (without_seeds 0 1
                (combined cpython (search_similar (emb_manager toy) [1; 0]%Q 40)
                                  (search_similar (emb_manager toy) [3 # 5; 4 # 5]%Q 40))) ->
        In j (without_seeds 0 1
                (combined cpython (search_similar (emb_manager toy) [1; 0]%Q 40)
                                  (search_similar (emb_manager toy) [3 # 5; 4 # 5]%Q 40))) ->
        (blended_score (search_similar (emb_manager toy) [1; 0]%Q 40)
                       (search_similar (emb_manager toy) [3 # 5; 4 # 5]%Q 40) i
         == blended_score (search_similar (emb_manager toy) [1; 0]%Q 40)
                          (search_similar (emb_manager toy) [3 # 5; 4 # 5]%Q 40) j)%Q ->
        i = j)
  /\ fst (recommend cpython toy 101 102 2 []) = fst (recommend cpython toy 102 101 2 []).
Proof.
  assert (Hties : forall i j,
             In i (without_seeds 0 1
                     (combined cpython (search_similar (emb_manager toy) [1; 0]%Q 40)
                        (search_similar (emb_manager toy) [3 # 5; 4 # 5]%Q 40))) ->
             In j (without_seeds 0 1
                     (combined cpython (search_similar (emb_manager toy) [1; 0]%Q 40)
                        (search_similar (emb_manager toy) [3 # 5; 4 # 5]%Q 40))) ->
             (blended_score (search_similar (emb_manager toy) [1; 0]%Q 40)
                            (search_similar (emb_manager toy) [3 # 5; 4 # 5]%Q 40) i
              == blended_score (search_similar (emb_manager toy) [1; 0]%Q 40)
                               (search_similar (emb_manager toy) [3 # 5; 4 # 5]%Q 40) j)%Q ->
             i = j).
  { assert (E : without_seeds 0 1
                  (combined cpython (search_similar (emb_manager toy) [1; 0]%Q 40)
                                    (search_similar (emb_manager toy) [3 # 5; 4 # 5]%Q 40))
                = [2; -1]) by (vm_compute; reflexivity).
    rewrite E. intros i j Hi Hj Hb.
    destruct Hi as [<- | [<- | []]]; destruct Hj as [<- | [<- | []]];
      try reflexivity; vm_compute in Hb; discriminate Hb. }
  split; [exact toy_well_formed |].
  split; [reflexivity |]. split; [reflexivity |].
  split; [reflexivity |]. split; [reflexivity |].
  split; [exact Hties |].
  exact (recommend_symmetric_without_ties cpython toy 101 102 2 0 1
           [1; 0]%Q [3 # 5; 4 # 5]%Q [] toy_well_formed eq_refl eq_refl eq_refl eq_refl Hties).
Defined.

(* ================================================================== *)
(** * The set order only matters among ties                            *)
(* ================================================================== *)

Lemma ranked_any_order_eq (order order' : set_order) (res1 res2 : list Q * list Z)
  (idx1 idx2 : Z) :
  (forall i j,
      In i (without_seeds idx1 idx2 (combined order res1 res2)) ->
      In j (without_seeds idx1 idx2 (combined order res1 res2)) ->
      (blended_score res1 res2 i == blended_score res1 res2 j)%Q -> i = j) ->
  without_seeds idx1 idx2 (ranked order res1 res2)
  = without_seeds idx1 idx2 (ranked order' res1 res2).
Proof.
  intros Hinj. apply (sorted_unique (blended_score res1 res2)).
  - apply StronglySorted_filter, sorted_reverse_sorted.
  - apply StronglySorted_filter, sorted_reverse_sorted.
  - apply NoDup_Permutation; try apply without_seeds_ranked_NoDup.
    intros i. rewrite !without_seeds_ranked_In. unfold without_seeds, combined.
    rewrite !filter_In, !union_list_In. reflexivity.
  - intros i j Hi Hj. apply Hinj; apply without_seeds_ranked_In; assumption.
Qed.

(** X18: for a well-formed system, when no two candidates other than the
    seeds have equal blended scores, the frame that [recommend] returns is
    the same under every iteration order of the candidate set: the order of
    the set decides nothing but the order among ties. *)
Theorem recommend_order_independent_without_ties (order order' : set_order)
  (self : MovieRecommender) (movie_id1 movie_id2 top_n idx1 idx2 : Z)
  (emb1 emb2 : Faiss.vector) (tr : list event) :
  well_formed self ->
  dict_get (self_id_to_index self) movie_id1 = Some idx1 ->
  dict_get (self_id_to_index self) movie_id2 = Some idx2 ->
  getitem (embeddings (emb_manager self)) idx1 = Some emb1 ->
  getitem (embeddings (emb_manager self)) idx2 = Some emb2 ->
  (forall i j,
      In i (without_seeds idx1 idx2
              (combined order (search_similar (emb_manager self) emb1 40)
                              (search_similar (emb_manager self) emb2 40))) ->
      In j (without_seeds idx1 idx2
              (combined order (search_similar (emb_manager self) emb1 40)
                              (search_similar (emb_manager self) emb2 40))) ->
      (blended_score (search_similar (emb_manager self) emb1 40)
                     (search_similar (emb_manager self) emb2 40) i
       == blended_score (search_similar (emb_manager self) emb1 40)
                        (search_similar (emb_manager self) emb2 40) j)%Q ->
      i = j) ->
  fst (recommend order self movie_id1 movie_id2 top_n tr)
  = fst (recommend order' self movie_id1 movie_id2 top_n tr).
Proof.
  intros Hwf H1 H2 E1 E2 Hinj.
  destruct (recommend_runs order self movie_id1 movie_id2 top_n idx1 idx2 tr Hwf H1 H2)
    as [a1 [a2 [g1 [g2 [recs [E1' [E2' [G1 [G2 [Hrows [Hrec _]]]]]]]]]]].
  destruct (recommend_runs order' self movie_id1 movie_id2 top_n idx1 idx2 tr Hwf H1 H2)
    as [b1 [b2 [g1' [g2' [recs' [F1 [F2 [G1' [G2' [Hrows' [Hrec' _]]]]]]]]]]].
  rewrite E1 in E1', F1. rewrite E2 in E2', F2.
  injection E1' as <-. injection E2' as <-. injection F1 as <-. injection F2 as <-.
  rewrite G1 in G1'. rewrite G2 in G2'. injection G1' as <-. injection G2' as <-.
  rewrite Hrec, Hrec'. cbn [fst]. f_equal.
  pose proof (ranked_any_order_eq order order'
                (search_similar (emb_manager self) emb1 40)
                (search_similar (emb_manager self) emb2 40) idx1 idx2 Hinj) as Heq.
  unfold window in Hrows, Hrows'. rewrite <- Heq in Hrows'.
  refine (scored_determined (movies_df self) _ _ _ _ _ _ Hrows Hrows').
  reflexivity.
Qed.

Lemma recommend_order_independent_toy :
  well_formed toy
  /\ dict_get (self_id_to_index toy) 101 = Some 0
  /\ dict_get (self_id_to_index toy) 102 = Some 1
  /\ getitem (embeddings (emb_manager toy)) 0 = Some [1; 0]%Q
  /\ getitem (embeddings (emb_manager toy)) 1 = Some [3 # 5; 4 # 5]%Q
  /\ (forall i j,
        In i (without_seeds 0 1
                (combined cpython (search_similar (emb_manager toy) [1; 0]%Q 40)
                                  (search_similar (emb_manager toy) [3 # 5; 4 # 5]%Q 40))) ->
        In j (without_seeds 0 1
                (combined cpython (search_similar (emb_manager toy) [1; 0]%Q 40)
                                  (search_similar (emb_manager toy) [3 # 5; 4 # 5]%Q 40))) ->
        (blended_score (search_similar (emb_manager toy) [1; 0]%Q 40)
                       (search_similar (emb_manager toy) [3 # 5; 4 # 5]%Q 40) i
         == blended_score (search_similar (emb_manager toy) [1; 0]%Q 40)
                          (search_similar (emb_manager toy) [3 # 5; 4 # 5]%Q 40) j)%Q ->
        i = j)
  /\ fst (recommend cpython toy 101 102 2 []) = fst (recommend last_seen toy 101 102 2 []).
Proof.
  assert (Hties : forall i j,
             In i (without_seeds 0 1
                     (combined cpython (search_similar (emb_manager toy) [1; 0]%Q 40)
                        (search_similar (emb_manager toy) [3 # 5; 4 # 5]%Q 40))) ->
             In j (without_seeds 0 1
                     (combined cpython (search_similar (emb_manager toy) [1; 0]%Q 40)
                        (search_similar (emb_manager toy) [3 # 5; 4 # 5]%Q 40))) ->
             (blended_score (search_similar (emb_manager toy) [1; 0]%Q 40)
                            (search_similar (emb_manager toy) [3 # 5; 4 # 5]%Q 40) i
              == blended_score (search_similar (emb_manager toy) [1; 0]%Q 40)
                               (search_similar (emb_manager toy) [3 # 5; 4 # 5]%Q 40) j)%Q ->
             i = j).
  { assert (E : without_seeds 0 1
                  (combined cpython (search_similar (emb_manager toy) [1; 0]%Q 40)
                                    (search_similar (emb_manager toy) [3 # 5; 4 # 5]%Q 40))
                = [2; -1]) by (vm_compute; reflexivity).
    rewrite E. intros i j Hi Hj Hb.
    destruct Hi as [<- | [<- | []]]; destruct Hj as [<- | [<- | []]];
      try reflexivity; vm_compute in Hb; discriminate Hb. }
  split; [exact toy_well_formed |].
  split; [reflexivity |]. split; [reflexivity |].
  split; [reflexivity |]. split; [reflexivity |].
  split; [exact Hties |].
  exact (recommend_order_independent_without_ties cpython last_seen toy 101 102 2 0 1
           [1; 0]%Q [3 # 5; 4 # 5]%Q [] toy_well_formed
           eq_refl eq_refl eq_refl eq_refl Hties).
Defined.
